(** * Power monitor bot: a shallow embedding of [app.py]

    The development follows the source file top to bottom:
    - Python values the program manipulates (JSON documents, floats,
      exceptions);
    - the battery probe ([read_battery_psutil], [read_battery_linux_sysfs],
      [read_battery_termux], [get_battery_snapshot]);
    - the text helpers ([format_time_left], [snapshot_text]);
    - the bot object ([PowerMonitorBot]): access control, notifier,
      monitor loop, persistence of the registry.

    Calls into the operating system and into third-party libraries are
    inputs of the model: every function takes the answers of the calls it
    makes (possibly an exception) and threads a trace of observable
    events. *)

From Stdlib Require Import Ascii String.
From stdpp Require Import gmap strings list pretty.

Local Open Scope Z_scope.
Local Open Scope string_scope.

(** ** Python values *)

(** A raised exception: its class name and its [str()]. *)
Record exn := Exn { exn_type : string; exn_msg : string }.

(** Outcome of a call that may raise. *)
Inductive result (A : Type) :=
| Ok (a : A)
| Raise (e : exn).
Arguments Ok {A} a.
Arguments Raise {A} e.

(** A Python [float]: a signed dyadic number, an infinity or a NaN. *)
Inductive pyfloat :=
| FFinite (neg : bool) (m : N) (e : Z)   (* (-1)^neg * m * 2^e *)
| FInf (neg : bool)
| FNaN.

(** Values decoded by [json.load] / accepted by [json.dump]. *)
#[warnings="-register-all"]
Inductive json :=
| JNull
| JBool (b : bool)
| JInt (z : Z)
| JFloat (f : pyfloat)
| JStr (s : string)
| JArr (l : list json)
| JObj (d : gmap string json).

(** Truthiness ([if x:], [bool(x)]). *)
Definition float_truthy (f : pyfloat) : bool :=
  match f with
  | FFinite _ m _ => negb (m =? 0)%N
  | _ => true
  end.

Definition str_truthy (s : string) : bool :=
  match s with EmptyString => false | _ => true end.

Definition truthy (v : json) : bool :=
  match v with
  | JNull => false
  | JBool b => b
  | JInt z => negb (z =? 0)%Z
  | JFloat f => float_truthy f
  | JStr s => str_truthy s
  | JArr l => match l with [] => false | _ => true end
  | JObj d => negb (bool_decide (d = ∅))
  end.

(** [x == "literal"] for a dynamically typed [x]. *)
Definition eq_str (v : json) (s : string) : bool :=
  match v with
  | JStr t => String.eqb t s
  | _ => false
  end.

(** [dict.get(key)] on a decoded document: only objects have [.get]. *)
Definition attr_error (what : string) : exn :=
  Exn "AttributeError" ("object has no attribute '" +:+ what +:+ "'").

Definition json_get (v : json) (key : string) : result (option json) :=
  match v with
  | JObj d => Ok (d !! key)
  | _ => Raise (attr_error "get")
  end.

(** [x is not None] for the result of [dict.get]. *)
Definition not_none (o : option json) : option json :=
  match o with
  | Some JNull => None
  | other => other
  end.

(** Text parsers of the Python runtime.  They are left abstract: nothing
    below depends on which strings they accept. *)
Record pyrt := PyRt {
  float_of_str : string -> result pyfloat;   (* float("...") *)
  int_of_str : string -> result Z;           (* int("...") *)
  json_loads : string -> result json;        (* json.loads("...") *)
}.

Definition type_error (msg : string) : exn := Exn "TypeError" msg.
Definition value_error (msg : string) : exn := Exn "ValueError" msg.

Definition float_of_int (z : Z) : pyfloat := FFinite (z <? 0)%Z (Z.abs_N z) 0.

(** [float(x)] *)
Definition py_float (rt : pyrt) (v : json) : result pyfloat :=
  match v with
  | JBool b => Ok (float_of_int (if b then 1 else 0))
  | JInt z => Ok (float_of_int z)
  | JFloat f => Ok f
  | JStr s => float_of_str rt s
  | _ => Raise (type_error "float() argument must be a string or a real number")
  end.

(** Magnitude of a finite float truncated toward zero. *)
Definition trunc_mag (m : N) (e : Z) : N :=
  if (0 <=? e)%Z then (m * 2 ^ Z.to_N e)%N else (m / 2 ^ Z.to_N (- e))%N.

(** [int(x)] *)
Definition py_int (rt : pyrt) (v : json) : result Z :=
  match v with
  | JBool b => Ok (if b then 1 else 0)
  | JInt z => Ok z
  | JFloat (FFinite neg m e) =>
      Ok (if neg then - Z.of_N (trunc_mag m e) else Z.of_N (trunc_mag m e))
  | JFloat (FInf _) => Raise (Exn "OverflowError" "cannot convert float infinity to integer")
  | JFloat FNaN => Raise (value_error "cannot convert float NaN to integer")
  | JStr s => int_of_str rt s
  | _ => Raise (type_error "int() argument must be a string, a bytes-like object or a real number")
  end.

(** ** Formatting *)

(** Magnitude of a finite float rounded to the nearest integer, ties to
    even: the rounding of the format specification [.0f]. *)
Definition round_half_even (m : N) (e : Z) : N :=
  if (0 <=? e)%Z then (m * 2 ^ Z.to_N e)%N
  else
    let d := (2 ^ Z.to_N (- e))%N in
    let q := (m / d)%N in
    let r := (m mod d)%N in
    match (2 * r ?= d)%N with
    | Lt => q
    | Gt => (q + 1)%N
    | Eq => if N.even q then q else (q + 1)%N
    end.

Definition sign_prefix (neg : bool) : string := if neg then "-" else EmptyString.

(** [f"{x:.0f}"] *)
Definition format_0f (x : pyfloat) : string :=
  match x with
  | FFinite neg m e => sign_prefix neg +:+ pretty (round_half_even m e)
  | FInf neg => sign_prefix neg +:+ "inf"
  | FNaN => "nan"
  end.

(** ** Snapshots *)

(** The dictionary the battery helpers return.  [power_plugged] is typed
    [bool|None] by the docstring of [get_battery_snapshot]. *)
Record snapshot := Snapshot {
  percent : option pyfloat;
  power_plugged : option bool;
  secsleft : option Z;
  source : string;
}.

(** The psutil module, when its import succeeded. *)
Record psutil_module := PsutilModule {
  POWER_TIME_UNLIMITED : Z;
  POWER_TIME_UNKNOWN : Z;
}.

(** The named tuple [psutil.sensors_battery()] returns. *)
Record sbattery := SBattery {
  sb_percent : option pyfloat;
  sb_power_plugged : option bool;
  sb_secsleft : option Z;
}.

(** One directory entry of [/sys/class/power_supply].  A file that does
    not exist is [None]; a file that exists holds the outcome of opening
    and reading it. *)
Record supply_entry := SupplyEntry {
  se_name : string;
  se_isdir : bool;
  se_status : option (result string);
  se_capacity : option (result string);
}.

(** What [subprocess.run] returns. *)
Record completed_process := CompletedProcess {
  returncode : Z;
  stdout : string;
}.

(** The answers of the outside world to one probe. *)
Record probe_env := ProbeEnv {
  sensors_battery : result (option sbattery);
  power_supply_isdir : bool;                       (* os.path.isdir(base) *)
  power_supply_listdir : result (list supply_entry); (* os.listdir(base) *)
  termux_battery_status : result completed_process;  (* subprocess.run([...]) *)
}.

(** ** Traces *)

Inductive adapter := Psutil | Sysfs | Termux.

Inductive event :=
| EvAdapter (a : adapter)                 (* a battery helper is entered *)
| EvNotifyAll (text : string)             (* [_notify_all(text)] is entered *)
| EvSend (cid : Z) (text : string)        (* [bot.send_message(cid, text, ...)] is called *)
| EvPrint (line : string).                (* [print(line)] *)

(** A computation that emits events and returns or raises. *)
Definition io (A : Type) : Type := list event * result A.

Definition ret {A} (a : A) : io A := ([], Ok a).
Definition raise {A} (e : exn) : io A := ([], Raise e).
Definition lift {A} (r : result A) : io A := ([], r).
Definition emit (ev : event) : io unit := ([ev], Ok tt).

Definition bind {A B} (m : io A) (k : A -> io B) : io B :=
  match m with
  | (t, Ok a) => let '(t', r) := k a in ((t ++ t')%list, r)
  | (t, Raise e) => (t, Raise e)
  end.

(** [try: m  except Exception as e: h e] *)
Definition try_except {A} (m : io A) (h : exn -> io A) : io A :=
  match m with
  | (t, Ok a) => (t, Ok a)
  | (t, Raise e) => let '(t', r) := h e in ((t ++ t')%list, r)
  end.

#[global] Instance io_ret : MRet io := @ret.
#[global] Instance io_bind : MBind io := fun A B k m => bind m k.

Definition trace {A} (m : io A) : list event := fst m.
Definition outcome {A} (m : io A) : result A := snd m.

(** ** String helpers *)

(** Whitespace removed by [str.strip()], on ASCII text. *)
Definition is_space (c : ascii) : bool :=
  let n := nat_of_ascii c in
  ((9 <=? n)%nat && (n <=? 13)%nat) || ((28 <=? n)%nat && (n <=? 32)%nat).

Fixpoint lstrip (s : string) : string :=
  match s with
  | EmptyString => EmptyString
  | String c s' => if is_space c then lstrip s' else s
  end.

Fixpoint rstrip (s : string) : string :=
  match s with
  | EmptyString => EmptyString
  | String c s' =>
      match rstrip s' with
      | EmptyString => if is_space c then EmptyString else String c EmptyString
      | r => String c r
      end
  end.

Definition strip (s : string) : string := rstrip (lstrip s).

(** [str.lower()], on ASCII text. *)
Definition lower_ascii (c : ascii) : ascii :=
  let n := nat_of_ascii c in
  if ((65 <=? n)%nat && (n <=? 90)%nat) then ascii_of_nat (n + 32) else c.

Fixpoint lower (s : string) : string :=
  match s with
  | EmptyString => EmptyString
  | String c s' => String (lower_ascii c) (lower s')
  end.

(** [x in (a, b, c)] on strings. *)
Definition str_in (x : string) (l : list string) : bool :=
  existsb (String.eqb x) l.

(** ** Battery reading helpers *)

(** [bool(x)] where [x] is [True], [False] or [None]. *)
Definition bool_of_tristate (x : option bool) : bool :=
  match x with
  | Some b => b
  | None => false
  end.

Definition read_battery_psutil (psutil : option psutil_module) (env : probe_env)
  : io (option snapshot) :=
  _ ← emit (EvAdapter Psutil);
  match psutil with
  | None => mret None
  | Some _ =>
      try_except
        (b ← lift (sensors_battery env);
         match b with
         | None => mret None
         | Some b =>
             mret (Some {| percent := sb_percent b;
                           power_plugged := Some (bool_of_tristate (sb_power_plugged b));
                           secsleft := sb_secsleft b;
                           source := "psutil" |})
         end)
        (fun _ => mret None)
  end.

(** The status words that count as plugged. *)
Definition charging_tokens : list string := ["charging"; "full"; "pending_charge"].

(** Body of the [try] block for one candidate directory. *)
Definition sysfs_read (rt : pyrt) (name : string)
    (status_file capacity_file : result string) : io snapshot :=
  status ← lift status_file;
  let status := lower (strip status) in
  cap ← lift capacity_file;
  let cap := strip cap in
  pct ← lift (py_float rt (JStr cap));
  let plugged := str_in status charging_tokens in
  mret {| percent := Some pct;
          power_plugged := Some plugged;
          secsleft := None;
          source := "sysfs:" +:+ name |}.

(** The [for cand in candidates] loop. *)
Fixpoint sysfs_scan (rt : pyrt) (candidates : list supply_entry) : io (option snapshot) :=
  match candidates with
  | [] => mret None
  | cand :: rest =>
      match se_status cand, se_capacity cand with
      | Some status_file, Some capacity_file =>
          r ← try_except
                (snap ← sysfs_read rt (se_name cand) status_file capacity_file;
                 mret (Some snap))
                (fun _ => mret None);
          match r with
          | Some snap => mret (Some snap)
          | None => sysfs_scan rt rest
          end
      | _, _ => sysfs_scan rt rest
      end
  end.

Definition read_battery_linux_sysfs (rt : pyrt) (env : probe_env) : io (option snapshot) :=
  _ ← emit (EvAdapter Sysfs);
  if negb (power_supply_isdir env) then mret None
  else
    names ← lift (power_supply_listdir env);
    let candidates := filter (fun e => se_isdir e = true) names in
    sysfs_scan rt candidates.

Definition read_battery_termux (rt : pyrt) (env : probe_env) : io (option snapshot) :=
  _ ← emit (EvAdapter Termux);
  try_except
    (result ← lift (termux_battery_status env);
     if (returncode result =? 0)%Z && str_truthy (stdout result) then
       data ← lift (json_loads rt (stdout result));
       p ← lift (json_get data "percentage");
       pct ← match not_none p with
             | Some v => f ← lift (py_float rt v); mret (Some f)
             | None => mret None
             end;
       q ← lift (json_get data "plugged");
       let plugged := match q with Some v => truthy v | None => false end in
       mret (Some {| percent := pct;
                     power_plugged := Some plugged;
                     secsleft := None;
                     source := "termux-battery-status" |})
     else mret None)
    (fun _ => mret None).

(** [if st:] on the dictionary a helper returned, or [None]. *)
Definition snapshot_truthy (st : option snapshot) : bool :=
  match st with
  | Some _ => true   (* a dictionary with four keys *)
  | None => false
  end.

(** The part of [get_battery_snapshot] after the [linux] block. *)
Definition snapshot_after_linux (rt : pyrt) (detected_platform : json) (env : probe_env)
  : io (option snapshot) :=
  if eq_str detected_platform "android" then
    st ← read_battery_termux rt env;
    if snapshot_truthy st then mret st
    else
      (* fall back to sysfs as well *)
      st ← read_battery_linux_sysfs rt env;
      if snapshot_truthy st then mret st
      else if eq_str detected_platform "windows" then mret None
      else mret None
  else if eq_str detected_platform "windows" then mret None
  else mret None.

Definition get_battery_snapshot (rt : pyrt) (psutil : option psutil_module)
    (detected_platform : json) (env : probe_env) : io (option snapshot) :=
  (* prefer psutil when available *)
  st ← read_battery_psutil psutil env;
  if snapshot_truthy st then mret st
  else
    (* platform-specific fallbacks *)
    if eq_str detected_platform "linux" then
      st ← read_battery_linux_sysfs rt env;
      if snapshot_truthy st then mret st
      else snapshot_after_linux rt detected_platform env
    else snapshot_after_linux rt detected_platform env.

(** ** Text helpers *)

Definition format_time_left (psutil : option psutil_module) (secs : option Z) : string :=
  match secs with
  | None => "unknown"
  | Some secs =>
      (* [secs == psutil.POWER_TIME_UNLIMITED if psutil else -1] *)
      if truthy (match psutil with
                 | Some p => JBool (secs =? POWER_TIME_UNLIMITED p)%Z
                 | None => JInt (-1)
                 end)
      then "unlimited"
      else if truthy (match psutil with
                      | Some p => JBool (secs =? POWER_TIME_UNKNOWN p)%Z
                      | None => JInt (-1)
                      end)
      then "unknown"
      else
        let h := secs `div` 3600 in
        let m := (secs `mod` 3600) `div` 60 in
        pretty h +:+ "h " +:+ pretty m +:+ "m"
  end.

Definition snapshot_text (snap : option snapshot) : string :=
  match snap with
  | None => "Battery information not available."
  | Some snap =>
      let pct := percent snap in
      let plugged := power_plugged snap in
      let pct_str := match pct with
                     | Some pct => format_0f pct +:+ "%"
                     | None => "n/a"
                     end in
      let status := match plugged with
                    | Some true => "Power ON"
                    | Some false => "Power OFF"
                    | None => "Unknown"
                    end in
      status +:+ " - Battery: " +:+ pct_str
  end.

(** ** Utilities: safe json read/write *)

Definition DATA_FILE : string := "data.json".
Definition TEMP_DATA_FILE : string := "data.json.tmp".
Definition DEFAULT_POLL_INTERVAL : Z := 5.

(** A file of the working directory: a JSON document, or anything on which
    [open] or [json.load] raises. *)
Inductive file :=
| Unreadable
| Json (v : json).

Abbreviation filesystem := (gmap string file).

Definition safe_read_json (path : string) (fs : filesystem) : option json :=
  match fs !! path with
  | None => None                  (* not os.path.exists(path) *)
  | Some Unreadable => None       (* except Exception: return None *)
  | Some (Json v) => Some v
  end.

(** Where a write may fail. *)
Inductive write_fault :=
| NoFault
| OpenFails      (* open(TEMP_DATA_FILE, "w") raises *)
| DumpFails      (* json.dump raises after the file was truncated *)
| ReplaceFails.  (* os.replace raises *)

(** [os.replace(src, dst)] *)
Definition os_replace (src dst : string) (fs : filesystem) : filesystem :=
  match fs !! src with
  | Some f => <[dst := f]> (delete src fs)
  | None => fs
  end.

Definition safe_write_json (wf : write_fault) (path : string) (data : json)
    (fs : filesystem) : bool * filesystem :=
  match wf with
  | OpenFails => (false, fs)
  | _ =>
      let fs1 := <[TEMP_DATA_FILE := Unreadable]> fs in   (* opened for writing: truncated *)
      match wf with
      | DumpFails => (false, fs1)
      | _ =>
          let fs2 := <[TEMP_DATA_FILE := Json data]> fs1 in
          match wf with
          | ReplaceFails => (false, fs2)
          | _ => (true, os_replace TEMP_DATA_FILE path fs2)
          end
      end
  end.

(** ** Config / state handling *)

Definition default_state (platform_name : json) : gmap string json :=
  <["poll_interval" := JInt DEFAULT_POLL_INTERVAL]>
  (<["registered_ids" := JArr []]>
  (<["admin_ids" := JArr []]>
  (<["mode" := JStr "multi"]>
  (<["bot_token" := JNull]>
  (<["platform" := platform_name]> ∅))))).

(** What the operator finally answered to [interactive_setup] (through the
    environment variables or at the console): a token, admin-only mode with
    its chat ids or multi-user mode, and a polling interval or nothing. *)
Record setup_answers := SetupAnswers {
  ans_token : string;
  ans_admin_ids : option (list Z);
  ans_poll_interval : option Z;
}.

Definition interactive_setup (platform_name : json) (answers : setup_answers)
    (wf : write_fault) (fs : filesystem) : gmap string json * filesystem :=
  let cfg := default_state platform_name in
  let cfg := <["bot_token" := JStr (ans_token answers)]> cfg in
  let cfg := match ans_admin_ids answers with
             | Some ids => <["admin_ids" := JArr (JInt <$> ids)]> (<["mode" := JStr "admin"]> cfg)
             | None => <["mode" := JStr "multi"]> cfg
             end in
  let cfg := match ans_poll_interval answers with
             | Some v => if (0 <? v)%Z then <["poll_interval" := JInt v]> cfg
                         else <["poll_interval" := JInt DEFAULT_POLL_INTERVAL]> cfg
             | None => <["poll_interval" := JInt DEFAULT_POLL_INTERVAL]> cfg
             end in
  (* save *)
  let '(_, fs') := safe_write_json wf DATA_FILE (JObj cfg) fs in
  (cfg, fs').

(** [for x in v] on a decoded value. *)
Definition py_iter (v : json) : result (list json) :=
  match v with
  | JArr l => Ok l
  | JStr s => Ok ((fun c => JStr (String c EmptyString)) <$> list_ascii_of_string s)
  | JObj d => Ok ((fun kv => JStr (fst kv)) <$> map_to_list d)
  | _ => Raise (type_error "object is not iterable")
  end.

(** [[int(x) for x in xs if x]] *)
Fixpoint ints_if_truthy (rt : pyrt) (xs : list json) : result (list Z) :=
  match xs with
  | [] => Ok []
  | x :: xs' =>
      if truthy x then
        match py_int rt x with
        | Ok z =>
            match ints_if_truthy rt xs' with
            | Ok zs => Ok (z :: zs)
            | Raise e => Raise e
            end
        | Raise e => Raise e
        end
      else ints_if_truthy rt xs'
  end.

(** [dict.get(key, default)] *)
Definition get_default (d : gmap string json) (key : string) (dflt : json) : json :=
  match d !! key with
  | Some v => v
  | None => dflt
  end.

(** ** The bot object *)

(** The part of pyTelegramBotAPI the program calls. *)
Record telebot_api := TelebotApi {
  TeleBot : json -> result unit;               (* telebot.TeleBot(token) *)
  send_message : Z -> string -> result unit;   (* bot.send_message(cid, text, parse_mode='Markdown') *)
}.

(** The fields of a [PowerMonitorBot] instance. *)
Record bot := Bot {
  platform : json;
  poll_interval : Z;
  token : json;
  registered_ids : gset Z;
  admin_ids : gset Z;
  mode : json;
  prev_plugged : option bool;
}.

Definition set_prev_plugged (b : bot) (p : option bool) : bot :=
  {| platform := platform b; poll_interval := poll_interval b; token := token b;
     registered_ids := registered_ids b; admin_ids := admin_ids b; mode := mode b;
     prev_plugged := p |}.

Definition set_registered_ids (b : bot) (s : gset Z) : bot :=
  {| platform := platform b; poll_interval := poll_interval b; token := token b;
     registered_ids := s; admin_ids := admin_ids b; mode := mode b;
     prev_plugged := prev_plugged b |}.

Definition set_admin_ids (b : bot) (s : gset Z) : bot :=
  {| platform := platform b; poll_interval := poll_interval b; token := token b;
     registered_ids := registered_ids b; admin_ids := s; mode := mode b;
     prev_plugged := prev_plugged b |}.

Module PowerMonitorBot.

(** [__init__].  [detected] is the result of [detect_platform()], the
    default of the platform lookup. *)
Definition __init__ (api : telebot_api) (rt : pyrt) (detected : string)
    (config : gmap string json) : result bot :=
  let platform := get_default config "platform" (JStr detected) in
  match py_int rt (get_default config "poll_interval" (JInt DEFAULT_POLL_INTERVAL)) with
  | Raise e => Raise e
  | Ok poll_interval =>
      let token := get_default config "bot_token" JNull in
      if negb (truthy token) then Raise (value_error "Bot token missing in configuration.")
      else
        match TeleBot api token with
        | Raise e => Raise e
        | Ok _ =>
            match py_iter (get_default config "registered_ids" (JArr [])) with
            | Raise e => Raise e
            | Ok regs =>
                match ints_if_truthy rt regs with
                | Raise e => Raise e
                | Ok regs =>
                    match py_iter (get_default config "admin_ids" (JArr [])) with
                    | Raise e => Raise e
                    | Ok adms =>
                        match ints_if_truthy rt adms with
                        | Raise e => Raise e
                        | Ok adms =>
                            Ok {| platform := platform;
                                  poll_interval := poll_interval;
                                  token := token;
                                  registered_ids := list_to_set regs;
                                  admin_ids := list_to_set adms;
                                  mode := get_default config "mode" (JStr "multi");
                                  prev_plugged := None |}
                        end
                    end
                end
            end
        end
  end.

(** [_is_allowed] *)
Definition _is_allowed (self : bot) (chat_id : Z) : bool :=
  if eq_str (mode self) "multi" then true
  else (* admin mode *) bool_decide (chat_id ∈ admin_ids self).

(** [for x in xs: body x] *)
Fixpoint for_each {A} (xs : list A) (body : A -> io unit) : io unit :=
  match xs with
  | [] => mret tt
  | x :: xs' => _ ← body x; for_each xs' body
  end.

(** The body of the loop of [_notify_all]: one delivery, whose failure is
    caught and logged. *)
Definition deliver (api : telebot_api) (text : string) (cid : Z) : io unit :=
  try_except
    (_ ← emit (EvSend cid text); lift (send_message api cid text))
    (fun e => emit (EvPrint ("[WARN] Failed to send message to "
                             +:+ pretty cid +:+ ": " +:+ exn_msg e))).

(** [_notify_all] *)
Definition _notify_all (api : telebot_api) (self : bot) (text : string) : io unit :=
  _ ← emit (EvNotifyAll text);
  let recipients :=
    if eq_str (mode self) "multi" then elements (registered_ids self)
    else elements (admin_ids self) in
  match recipients with
  | [] => emit (EvPrint "[INFO] No registered recipients to notify.")
  | _ => for_each recipients (deliver api text)
  end.

Definition msg_power_on : string := "🔌 **Power is ON now**".
Definition msg_power_off : string := "⚡ **Power is OFF now**".

(** The first read of [_monitor_loop], before the [while] loop. *)
Definition monitor_first_read (self : bot) (probe : io (option snapshot)) : io bot :=
  _ ← emit (EvPrint ("[INFO] Monitor loop running. Poll interval = "
                     +:+ pretty (poll_interval self) +:+ "s"));
  snap ← probe;
  match snap with
  | Some snap => mret (set_prev_plugged self (power_plugged snap))
  | None =>
      _ ← emit (EvPrint "[WARN] Battery snapshot not available. Automatic transition alerts will be disabled.");
      mret (set_prev_plugged self None)
  end.

(** One iteration of the [while] loop of [_monitor_loop]. *)
Definition monitor_tick (api : telebot_api) (self : bot) (probe : io (option snapshot))
  : io bot :=
  try_except
    (snap ← probe;
     match snap with
     | Some snap =>
         let plugged := power_plugged snap in
         match prev_plugged self, plugged with
         | None, _ =>
             (* On first actual reading set prev if None *)
             mret (set_prev_plugged self plugged)
         | Some prev, Some now =>
             if negb (Bool.eqb now prev) then
               (* Transition happened *)
               let msg := if now then msg_power_on else msg_power_off in
               _ ← emit (EvPrint ("[EVENT] Transition detected. Sending notifications. ("
                                  +:+ (if now then "plugged" else "unplugged") +:+ ")"));
               _ ← _notify_all api self msg;
               mret (set_prev_plugged self plugged)
             else mret self
         | Some _, None => mret self
         end
     | None =>
         (* no snapshot available; skip *)
         mret self
     end)
    (fun e =>
       _ ← emit (EvPrint ("[ERROR] Exception in monitor loop: " +:+ exn_msg e));
       mret self).

(** The [while] loop, for the reads that happen before the stop event is set. *)
Fixpoint monitor_ticks (api : telebot_api) (self : bot) (probes : list (io (option snapshot)))
  : io bot :=
  match probes with
  | [] => mret self
  | probe :: rest =>
      self' ← monitor_tick api self probe;
      monitor_ticks api self' rest
  end.

(** [_monitor_loop]: the first read, then the loop. *)
Definition _monitor_loop (api : telebot_api) (self : bot)
    (first : io (option snapshot)) (rest : list (io (option snapshot))) : io bot :=
  self' ← monitor_first_read self first;
  monitor_ticks api self' rest.

(** [_persist_registered]: update config and persist to data.json.  The
    console output of the persistence layer is not modelled. *)
Definition _persist_registered (wf : write_fault) (self : bot) (fs : filesystem)
  : filesystem :=
  let cfg := match safe_read_json DATA_FILE fs with
             | Some v => if truthy v then v else JObj ∅
             | None => JObj ∅
             end in
  match cfg with
  | JObj cfg =>
      let cfg := match cfg !! "registered_ids" with
                 | Some _ => cfg
                 | None => <["registered_ids" := JArr []]> cfg
                 end in
      let cfg := <["registered_ids" := JArr (JInt <$> elements (registered_ids self))]> cfg in
      (* admin ids should persist too *)
      let cfg := <["admin_ids" := JArr (JInt <$> elements (admin_ids self))]> cfg in
      let cfg := <["mode" := mode self]> cfg in
      let cfg := <["poll_interval" := JInt (poll_interval self)]> cfg in
      (* ensure platform and token remain *)
      let cfg := <["platform" := platform self]> cfg in
      let cfg := <["bot_token" := token self]> cfg in
      snd (safe_write_json wf DATA_FILE (JObj cfg) fs)
  | _ => fs   (* cfg.setdefault raises; except Exception: print a warning *)
  end.

(** [set(xs)] on the list of ints [interactive_setup] builds; a set with
    other elements has no counterpart in the typed field of the model. *)
Fixpoint int_set (xs : list json) : result (gset Z) :=
  match xs with
  | [] => Ok ∅
  | JInt z :: xs' =>
      match int_set xs' with
      | Ok s => Ok ({[z]} ∪ s)
      | Raise e => Raise e
      end
  | _ => Raise (type_error "admin id is not an int")
  end.

(** [_reconfigure_console]: re-run the setup, replace the runtime fields,
    update the file.  When a conversion raises, the thread ends with the
    fields assigned so far. *)
Definition _reconfigure_console (rt : pyrt) (answers : setup_answers)
    (wf_setup wf : write_fault) (self : bot) (fs : filesystem) : bot * filesystem :=
  let '(new_cfg, fs) := interactive_setup (platform self) answers wf_setup fs in
  (* Replace runtime fields *)
  let self := {| platform := platform self; poll_interval := poll_interval self;
                 token := get_default new_cfg "bot_token" (token self);
                 registered_ids := registered_ids self; admin_ids := admin_ids self;
                 mode := get_default new_cfg "mode" (mode self);
                 prev_plugged := prev_plugged self |} in
  match py_iter (get_default new_cfg "admin_ids" (JArr [])) with
  | Raise _ => (self, fs)
  | Ok adms =>
      match int_set adms with
      | Raise _ => (self, fs)
      | Ok adms =>
          let self := set_admin_ids self adms in
          match py_int rt (get_default new_cfg "poll_interval" (JInt (poll_interval self))) with
          | Raise _ => (self, fs)
          | Ok poll =>
              let self := {| platform := platform self; poll_interval := poll;
                             token := token self;
                             registered_ids := registered_ids self;
                             admin_ids := admin_ids self; mode := mode self;
                             prev_plugged := prev_plugged self |} in
              (* update registered list in file *)
              (self, _persist_registered wf self fs)
          end
      end
  end.

(** The commands that change the registry, as the handlers receive them. *)
Inductive command :=
| Register (cid : Z)                              (* callback "register" *)
| Unregister (cid : Z)                            (* /unregister, callback "unregister" *)
| Reconfigure (cid : Z) (answers : setup_answers). (* /reconfigure, callback "reconfigure" *)

(** Effect of a handler on the bot and on the files; the replies sent to
    the chat are not modelled. *)
Definition handle (rt : pyrt) (wf_setup wf : write_fault) (c : command)
    (self : bot) (fs : filesystem) : bot * filesystem :=
  match c with
  | Register cid =>
      if eq_str (mode self) "admin" && negb (bool_decide (cid ∈ admin_ids self)) then (self, fs)
      else if negb (bool_decide (cid ∈ registered_ids self)) then
        let self := set_registered_ids self ({[cid]} ∪ registered_ids self) in
        (self, _persist_registered wf self fs)
      else (self, fs)
  | Unregister cid =>
      if bool_decide (cid ∈ registered_ids self) then
        let self := set_registered_ids self (registered_ids self ∖ {[cid]}) in
        (self, _persist_registered wf self fs)
      else (self, fs)
  | Reconfigure cid answers =>
      if negb (bool_decide (cid ∈ admin_ids self)) then (self, fs)
      else
        _reconfigure_console rt answers wf_setup wf self fs
  end.

(** Whether the handler of [c] reaches [_persist_registered]. *)
Definition mutates (c : command) (self : bot) : bool :=
  match c with
  | Register cid =>
      negb (eq_str (mode self) "admin" && negb (bool_decide (cid ∈ admin_ids self)))
      && negb (bool_decide (cid ∈ registered_ids self))
  | Unregister cid => bool_decide (cid ∈ registered_ids self)
  | Reconfigure cid _ => bool_decide (cid ∈ admin_ids self)
  end.

End PowerMonitorBot.

(** ** Main entry point *)

(** How [main] ends before [pm.run()]. *)
Inductive startup :=
| Started (pm : bot) (fs : filesystem)
| Exits (code : Z)
| Crashes (e : exn).

(** The pre-population loops of [main]: [try: s.add(int(r)) except: pass]. *)
Fixpoint add_ints (rt : pyrt) (xs : list json) (s : gset Z) : gset Z :=
  match xs with
  | [] => s
  | x :: xs' =>
      match py_int rt x with
      | Ok z => add_ints rt xs' ({[z]} ∪ s)
      | Raise _ => add_ints rt xs' s
      end
  end.

(** [main] up to the call of [pm.run()].  [answers] are used when the setup
    runs, [wf] by the write [main] itself may do. *)
Definition main (api : telebot_api) (rt : pyrt) (platform_name : string)
    (answers : setup_answers) (wf : write_fault) (fs : filesystem) : startup :=
  let cfg := safe_read_json DATA_FILE fs in
  let is_set := match cfg with Some v => truthy v | None => false end in
  let r : result (gmap string json * filesystem) :=
    if negb is_set then
      (* run interactive setup *)
      Ok (interactive_setup (JStr platform_name) answers wf fs)
    else
      match cfg with
      | Some (JObj d) =>
          (* ensure platform recorded; if different, update and persist *)
          if negb (match d !! "platform" with
                   | Some v => eq_str v platform_name
                   | None => false
                   end)
          then
            let d := <["platform" := JStr platform_name]> d in
            Ok (d, snd (safe_write_json wf DATA_FILE (JObj d) fs))
          else Ok (d, fs)
      | _ => Raise (attr_error "get")
      end in
  match r with
  | Raise e => Crashes e
  | Ok (cfg, fs) =>
      (* sanity checks *)
      let token := get_default cfg "bot_token" JNull in
      if negb (truthy token) then Exits 1
      else
        match PowerMonitorBot.__init__ api rt platform_name cfg with
        | Raise _ => Exits 1
        | Ok pm =>
            (* pre-populate registered ids from config *)
            match py_iter (get_default cfg "registered_ids" (JArr [])) with
            | Raise e => Crashes e
            | Ok reg =>
                let pm := set_registered_ids pm (add_ints rt reg (registered_ids pm)) in
                match py_iter (get_default cfg "admin_ids" (JArr [])) with
                | Raise e => Crashes e
                | Ok adm =>
                    let pm := set_admin_ids pm (add_ints rt adm (admin_ids pm)) in
                    Started pm fs
                end
            end
        end
  end.

(** The monitor thread of a bot, fed by the probe: one environment per read. *)
Definition run_monitor (rt : pyrt) (psutil : option psutil_module) (api : telebot_api)
    (self : bot) (env0 : probe_env) (envs : list probe_env) : io bot :=
  PowerMonitorBot._monitor_loop api self
    (get_battery_snapshot rt psutil (platform self) env0)
    (get_battery_snapshot rt psutil (platform self) <$> envs).

(** * Vocabulary of the specification *)

(** The two operating modes and the value of the [mode] field for each. *)
Inductive Mode := AdminOnly | MultiUser.

Definition mode_value (m : Mode) : json :=
  match m with
  | AdminOnly => JStr "admin"
  | MultiUser => JStr "multi"
  end.

(** [isAllowed(mode, adminIds, subscriberId)]: [_is_allowed] on a bot with
    that mode and that admin set, whatever its other fields. *)
Definition isAllowed (rest : bot) (m : Mode) (adminIds : gset Z) (subscriberId : Z) : bool :=
  PowerMonitorBot._is_allowed
    {| platform := platform rest; poll_interval := poll_interval rest;
       token := token rest; registered_ids := registered_ids rest;
       admin_ids := adminIds; mode := mode_value m;
       prev_plugged := prev_plugged rest |}
    subscriberId.


(** The status word and the battery figure of the status line. *)
Definition status_word (plugged : option bool) : string :=
  match plugged with
  | Some true => "Power ON"
  | Some false => "Power OFF"
  | None => "Unknown"
  end.

Definition battery_figure (pct : option pyfloat) : string :=
  match pct with
  | Some f => format_0f f +:+ "%"
  | None => "n/a"
  end.

(** Floats used in examples: 95.0, 12.5 = 25 * 2^-1 and 13.5 = 27 * 2^-1. *)
Definition f95 : pyfloat := FFinite false 95 0.
Definition f12_5 : pyfloat := FFinite false 25 (-1).
Definition f13_5 : pyfloat := FFinite false 27 (-1).

(** The delivery attempts and the fan-out calls recorded in a trace. *)
Definition sends (t : list event) : list (Z * string) :=
  omap (fun ev => match ev with EvSend cid text => Some (cid, text) | _ => None end) t.

Definition notify_calls (t : list event) : list string :=
  omap (fun ev => match ev with EvNotifyAll text => Some text | _ => None end) t.

(** The set [_notify_all] draws its recipients from. *)
Definition recipients (self : bot) : gset Z :=
  if eq_str (mode self) "multi" then registered_ids self else admin_ids self.

(** A probe as the monitor loop sees it: the adapters it entered, and the
    sample it returned or the exception it raised. *)
Definition probe_of (p : list adapter * result (option snapshot)) : io (option snapshot) :=
  (EvAdapter <$> p.1, p.2).

(** A probe that returns a given sample: a snapshot, or nothing. *)
Definition sample_probe (s : option snapshot) : io (option snapshot) :=
  probe_of ([], Ok s).

(** The sample a probe delivers to the loop: nothing when it raised, since
    the loop catches the exception and goes on. *)
Definition sample_of (r : result (option snapshot)) : option snapshot :=
  match r with
  | Ok s => s
  | Raise _ => None
  end.

Definition samples_of (probes : list (list adapter * result (option snapshot)))
  : list (option snapshot) :=
  (fun p => sample_of p.2) <$> probes.

(** The known plugged values of a sequence of samples: unavailable samples
    and unknown values are dropped. *)
Definition known (samples : list (option snapshot)) : list bool :=
  omap (fun s => s ≫= power_plugged) samples.

(** The new values at the changes of a sequence of known values that
    follows the value [prev]. *)
Fixpoint changes (prev : bool) (values : list bool) : list bool :=
  match values with
  | [] => []
  | now :: values' =>
      if Bool.eqb now prev then changes now values'
      else now :: changes now values'
  end.


(** The new values at the changes between consecutive known values. *)
Definition transitions (values : list bool) : list bool :=
  match values with
  | [] => []
  | first :: values' => changes first values'
  end.

(** The notification text for a change to [now]. *)
Definition message_for (now : bool) : string :=
  if now then PowerMonitorBot.msg_power_on else PowerMonitorBot.msg_power_off.

(** The last known value, [prev] when there is none. *)
Definition last_known (prev : option bool) (values : list bool) : option bool :=
  match last values with
  | Some b => Some b
  | None => prev
  end.

(** The changes of a sequence of known values processed from the tracking
    state [prev]. *)
Definition changes_from (prev : option bool) (values : list bool) : list bool :=
  match prev with
  | Some p => changes p values
  | None => transitions values
  end.

(** One tick: the value tracked after reading [now], and the change it
    makes, if any. *)
Definition tracked_after (prev now : option bool) : option bool :=
  match now with
  | Some b => Some b
  | None => prev
  end.

Definition tick_changes (prev now : option bool) : list bool :=
  match prev, now with
  | Some p, Some b => if Bool.eqb b p then [] else [b]
  | _, _ => []
  end.

(** The deliveries owed for a list of changes: every recipient gets the
    message of every change, change after change. *)
Definition fan_out (self : bot) (news : list bool) : list (Z * string) :=
  news ≫= fun now => (fun cid => (cid, message_for now)) <$> elements (recipients self).

(** The scenario of the specification: subscribers 1, 2 and 3 in
    multi-user mode, and the readings true, true, false, nothing, false,
    true.  Delivery to subscriber 2 fails every time. *)
Definition scenario_bot : bot :=
  {| platform := JStr "linux"; poll_interval := 5; token := JStr "123456:ABC";
     registered_ids := {[1; 2; 3]}; admin_ids := ∅; mode := JStr "multi";
     prev_plugged := None |}.

Definition scenario_api : telebot_api :=
  {| TeleBot := fun _ => Ok tt;
     send_message := fun cid _ =>
       if (cid =? 2)%Z then Raise (Exn "ApiTelegramException" "Forbidden: bot was blocked by the user")
       else Ok tt |}.

Definition reading (plugged : bool) : option snapshot :=
  Some {| percent := Some f95; power_plugged := Some plugged;
          secsleft := None; source := "psutil" |}.

Definition scenario_run : io bot :=
  PowerMonitorBot._monitor_loop scenario_api scenario_bot
    (sample_probe (reading true))
    (sample_probe <$> [reading true; reading false; None; reading false; reading true]).

(** The value a computation returned, if it returned. *)
Definition outcome_value {A} (r : result A) : option A :=
  match r with
  | Ok a => Some a
  | Raise _ => None
  end.

(** The probe as a chain of adapters. *)
Definition run_adapter (rt : pyrt) (psutil : option psutil_module) (env : probe_env)
    (a : adapter) : io (option snapshot) :=
  match a with
  | Psutil => read_battery_psutil psutil env
  | Sysfs => read_battery_linux_sysfs rt env
  | Termux => read_battery_termux rt env
  end.

(** The adapters tried for a platform, in order: psutil everywhere, sysfs
    on linux, termux then sysfs on android. *)
Definition chain (detected_platform : json) : list adapter :=
  (Psutil :: (if eq_str detected_platform "linux" then [Sysfs] else []))
  ++ (if eq_str detected_platform "android" then [Termux; Sysfs] else []).

(** The first snapshot an adapter of the list returns. *)
Fixpoint first_available (rt : pyrt) (psutil : option psutil_module) (env : probe_env)
    (adapters : list adapter) : io (option snapshot) :=
  match adapters with
  | [] => mret None
  | a :: rest =>
      st ← run_adapter rt psutil env a;
      match st with
      | Some snap => mret (Some snap)
      | None => first_available rt psutil env rest
      end
  end.

(** The adapters entered, as a trace records them. *)
Definition adapters_entered (t : list event) : list adapter :=
  omap (fun ev => match ev with EvAdapter a => Some a | _ => None end) t.

(** A runtime for the examples: its parsers read unsigned decimal numerals
    and reject every other text. *)
Fixpoint decimal (s : string) (acc : N) : option N :=
  match s with
  | EmptyString => Some acc
  | String c s' =>
      let n := nat_of_ascii c in
      if ((48 <=? n)%nat && (n <=? 57)%nat)
      then decimal s' (10 * acc + N.of_nat (n - 48))%N
      else None
  end.

Definition numeral (s : string) : result N :=
  match s with
  | EmptyString => Raise (value_error "empty text")
  | _ => match decimal s 0 with
         | Some n => Ok n
         | None => Raise (value_error "not a numeral")
         end
  end.

Definition numeral_rt : pyrt :=
  {| float_of_str := fun s => match numeral s with
                              | Ok n => Ok (FFinite false n 0)
                              | Raise e => Raise e
                              end;
     int_of_str := fun s => match numeral s with
                            | Ok n => Ok (Z.of_N n)
                            | Raise e => Raise e
                            end;
     json_loads := fun s => match numeral s with
                            | Ok n => Ok (JInt (Z.of_N n))
                            | Raise e => Raise e
                            end |}.

(** A Linux host without psutil on which [/sys/class/power_supply] is a
    directory that may not be listed. *)
Definition permission_denied : exn :=
  Exn "PermissionError" "[Errno 13] Permission denied: '/sys/class/power_supply'".

Definition env_unlistable : probe_env :=
  {| sensors_battery := Ok None;
     power_supply_isdir := true;
     power_supply_listdir := Raise permission_denied;
     termux_battery_status :=
       Raise (Exn "FileNotFoundError"
                  "[Errno 2] No such file or directory: 'termux-battery-status'") |}.

(** A laptop: psutil reports 95 percent and does not know whether the
    charger is plugged. *)
Definition env_laptop : probe_env :=
  {| sensors_battery := Ok (Some {| sb_percent := Some f95;
                                    sb_power_plugged := None;
                                    sb_secsleft := Some (-1) |});
     power_supply_isdir := false;
     power_supply_listdir := Ok [];
     termux_battery_status :=
       Raise (Exn "FileNotFoundError"
                  "[Errno 2] No such file or directory: 'termux-battery-status'") |}.

Definition psutil_present : option psutil_module :=
  Some {| POWER_TIME_UNLIMITED := -2; POWER_TIME_UNKNOWN := -1 |}.

(** How the plugged value of a snapshot was obtained from the answers of
    the environment: psutil's value through [bool()], a membership test on
    the status text of a power-supply directory, or the truth value of the
    key "plugged" of the termux answer, false when the key is missing. *)
Definition plugged_origin (rt : pyrt) (env : probe_env) (snap : snapshot) : Prop :=
  (∃ b, sensors_battery env = Ok (Some b)
        ∧ power_plugged snap = Some (bool_of_tristate (sb_power_plugged b)))
  ∨ (∃ names cand status,
        power_supply_listdir env = Ok names
        ∧ cand ∈ names
        ∧ se_status cand = Some (Ok status)
        ∧ power_plugged snap
          = Some (str_in (lower (strip status)) ["charging"; "full"; "pending_charge"]))
  ∨ (∃ result data q,
        termux_battery_status env = Ok result
        ∧ json_loads rt (stdout result) = Ok data
        ∧ json_get data "plugged" = Ok q
        ∧ power_plugged snap = Some (match q with Some v => truthy v | None => false end)).

(** What the probe returns on the laptop. *)
Definition laptop_snapshot : snapshot :=
  {| percent := Some f95; power_plugged := Some false;
     secsleft := Some (-1); source := "psutil" |}.

(** The data file is missing, unreadable, empty in the sense of [or {}],
    or holds an object: [_persist_registered] finds a dictionary to
    update. *)
Definition data_file_regular (fs : filesystem) : Prop :=
  match safe_read_json DATA_FILE fs with
  | None => True
  | Some (JObj _) => True
  | Some v => truthy v = false
  end.

(** The document [_persist_registered] writes for a bot. *)
Definition saved_as (self : bot) (d : gmap string json) : Prop :=
  d !! "registered_ids" = Some (JArr (JInt <$> elements (registered_ids self)))
  ∧ d !! "admin_ids" = Some (JArr (JInt <$> elements (admin_ids self)))
  ∧ d !! "mode" = Some (mode self)
  ∧ d !! "poll_interval" = Some (JInt (poll_interval self))
  ∧ d !! "bot_token" = Some (token self).


(** Subscriber 7 registers with the bot of the scenario, on a working
    directory without files. *)
Definition after_registration : bot * filesystem :=
  PowerMonitorBot.handle numeral_rt NoFault NoFault (PowerMonitorBot.Register 7)
    scenario_bot ∅.

Definition no_answers : setup_answers :=
  {| ans_token := "123456:ABC"; ans_admin_ids := None; ans_poll_interval := None |}.


(** * Further code of [app.py] *)

(** ** Platform detection *)

(** [needle in hay] on strings. *)
Fixpoint contains (needle hay : string) : bool :=
  String.prefix needle hay
  || match hay with
     | EmptyString => false
     | String _ hay' => contains needle hay'
     end.

(** What [detect_platform] asks the host. *)
Record host := Host {
  system : string;              (* platform.system() *)
  release : string;             (* platform.release() *)
  exists_termux_am : bool;      (* os.path.exists("/system/bin/termux-am") *)
  exists_com_termux : bool;     (* os.path.exists("/data/data/com.termux") *)
}.

Definition detect_platform (h : host) : string :=
  let plat := lower (system h) in
  if contains "linux" plat then
    (* check for Android (Termux) heuristics *)
    if contains "android" (lower (release h)) || exists_termux_am h then "android"
    else if exists_com_termux h then "android"
    else "linux"
  else if contains "windows" plat then "windows"
  else if contains "darwin" plat then "mac"
  else plat.

(** ** Setup from the environment *)

(** [s.split(",")] *)
Fixpoint split_comma (s : string) : list string :=
  match s with
  | EmptyString => [EmptyString]
  | String c s' =>
      if Ascii.eqb c ","%char then EmptyString :: split_comma s'
      else match split_comma s' with
           | part :: parts => String c part :: parts
           | [] => [String c EmptyString]
           end
  end.

(** [except ValueError] catches the exceptions of that class. *)
Definition is_value_error (e : exn) : bool := String.eqb (exn_type e) "ValueError".

(** The loop over the comma-separated admin ids: an id that is no number
    is skipped. *)
Fixpoint env_admin_ids (rt : pyrt) (parts : list string) : result (list Z) :=
  match parts with
  | [] => Ok []
  | id_str :: parts' =>
      match int_of_str rt (strip id_str) with
      | Ok z =>
          match env_admin_ids rt parts' with
          | Ok zs => Ok (z :: zs)
          | Raise e => Raise e
          end
      | Raise e => if is_value_error e then env_admin_ids rt parts' else Raise e
      end
  end.

(** [setup_from_env]; [environ] is [os.environ]. *)
Definition setup_from_env (rt : pyrt) (environ : gmap string string) (platform_name : json)
  : result (option (gmap string json)) :=
  match environ !! "BOT_TOKEN" with
  | None => Ok None
  | Some token =>
      if negb (str_truthy token) then Ok None
      else
        let cfg := default_state platform_name in
        let cfg := <["bot_token" := JStr token]> cfg in
        (* Mode setup *)
        let mode := lower (default "multi" (environ !! "BOT_MODE")) in
        let with_mode : result (gmap string json) :=
          if str_in mode ["admin"; "1"] then
            let cfg := <["mode" := JStr "admin"]> cfg in
            let admin_ids_str := default EmptyString (environ !! "ADMIN_IDS") in
            match env_admin_ids rt (split_comma admin_ids_str) with
            | Ok admin_ids => Ok (<["admin_ids" := JArr (JInt <$> admin_ids)]> cfg)
            | Raise e => Raise e
            end
          else Ok (<["mode" := JStr "multi"]> cfg) in
        match with_mode with
        | Raise e => Raise e
        | Ok cfg =>
            (* Poll interval *)
            match int_of_str rt (default (pretty DEFAULT_POLL_INTERVAL)
                                   (environ !! "POLL_INTERVAL")) with
            | Ok poll_interval =>
                if (0 <? poll_interval)%Z
                then Ok (Some (<["poll_interval" := JInt poll_interval]> cfg))
                else Ok (Some cfg)
            | Raise e =>
                if is_value_error e
                then Ok (Some (<["poll_interval" := JInt DEFAULT_POLL_INTERVAL]> cfg))
                else Raise e
            end
        end
  end.

(** ** The menu and the callback queries *)

(** An [InlineKeyboardButton]. *)
Record button := Button {
  label : string;
  callback_data : string;
}.

(** [keyboard.add(...)] with at most [row_width] buttons: one more row. *)
Definition keyboard_add (keyboard : list (list button)) (buttons : list button)
  : list (list button) :=
  (keyboard ++ [buttons])%list.

Module Menu.

(** [_create_main_menu] *)
Definition _create_main_menu (self : bot) (chat_id : Z) : list (list button) :=
  let keyboard := [] in
  (* Add main command buttons *)
  let keyboard := keyboard_add keyboard
                    [Button "🔋 Battery Status" "status"; Button "❓ Help" "help"] in
  let keyboard := keyboard_add keyboard
                    [Button "📝 Register" "register"; Button "🚫 Unregister" "unregister"] in
  (* Add admin-only button if user is admin *)
  if bool_decide (chat_id ∈ admin_ids self) then
    keyboard_add keyboard [Button "⚙️ Reconfigure (Admin)" "reconfigure"]
  else keyboard.

(** The effect of [handle_callback_query] on the bot and on the files,
    for the data of the button pressed, once [answer_callback_query] has
    returned; the replies are not modelled. *)
Definition handle_callback_query (rt : pyrt) (wf_setup wf : write_fault)
    (answers : setup_answers) (data : string) (cid : Z)
    (self : bot) (fs : filesystem) : bot * filesystem :=
  if String.eqb data "status" then (self, fs)
  else if String.eqb data "register" then
    PowerMonitorBot.handle rt wf_setup wf (PowerMonitorBot.Register cid) self fs
  else if String.eqb data "unregister" then
    PowerMonitorBot.handle rt wf_setup wf (PowerMonitorBot.Unregister cid) self fs
  else if String.eqb data "help" then (self, fs)
  else if String.eqb data "reconfigure" then
    PowerMonitorBot.handle rt wf_setup wf (PowerMonitorBot.Reconfigure cid answers) self fs
  else (self, fs).

(** The data the callback handler has a branch for. *)
Definition handled_data : list string :=
  ["status"; "register"; "unregister"; "help"; "reconfigure"].

End Menu.

(** ** Environments of the examples *)

Definition newline : string := String (ascii_of_nat 10) EmptyString.

(** A Linux laptop without psutil: the mains adapter has no capacity file,
    the first battery cannot be read, the second one is charging at 87%. *)
Definition env_sysfs : probe_env :=
  {| sensors_battery := Ok None;
     power_supply_isdir := true;
     power_supply_listdir :=
       Ok [ {| se_name := "AC"; se_isdir := true;
               se_status := None; se_capacity := None |};
            {| se_name := "BAT0"; se_isdir := true;
               se_status := Some (Raise (Exn "OSError" "[Errno 19] No such device"));
               se_capacity := Some (Ok ("50" +:+ newline)) |};
            {| se_name := "BAT1"; se_isdir := true;
               se_status := Some (Ok ("Charging" +:+ newline));
               se_capacity := Some (Ok ("87" +:+ newline)) |} ];
     termux_battery_status :=
       Raise (Exn "FileNotFoundError"
                  "[Errno 2] No such file or directory: 'termux-battery-status'") |}.

Definition sysfs_snapshot : snapshot :=
  {| percent := Some (FFinite false 87 0); power_plugged := Some true;
     secsleft := None; source := "sysfs:BAT1" |}.

(** The keys [_persist_registered] assigns. *)
Definition persisted_keys : list string :=
  ["registered_ids"; "admin_ids"; "mode"; "poll_interval"; "platform"; "bot_token"].

(** A data file written by hand with a note beside the token. *)
Definition fs_with_note : filesystem :=
  {[ DATA_FILE := Json (JObj (<["note" := JStr "keep me"]>
                               (<["bot_token" := JStr "123456:ABC"]> ∅))) ]}.

(** A data file that holds a list instead of an object. *)
Definition fs_with_list : filesystem := {[ DATA_FILE := Json (JArr [JInt 1]) ]}.

(** The settings a reconfiguration installs. *)
Definition answered_mode (answers : setup_answers) : string :=
  match ans_admin_ids answers with
  | Some _ => "admin"
  | None => "multi"
  end.

Definition answered_admins (answers : setup_answers) : gset Z :=
  match ans_admin_ids answers with
  | Some ids => list_to_set ids
  | None => ∅
  end.

Definition answered_poll_interval (answers : setup_answers) : Z :=
  match ans_poll_interval answers with
  | Some v => if (0 <? v)%Z then v else DEFAULT_POLL_INTERVAL
  | None => DEFAULT_POLL_INTERVAL
  end.

(** The bot of the scenario run by its admin 42 in admin-only mode. *)
Definition admin_bot : bot :=
  {| platform := JStr "linux"; poll_interval := 5; token := JStr "123456:ABC";
     registered_ids := {[1; 2; 3]}; admin_ids := {[42]}; mode := JStr "admin";
     prev_plugged := Some true |}.

(** A data file without a token. *)
Definition fs_without_token : filesystem :=
  {[ DATA_FILE := Json (JObj (<["mode" := JStr "multi"]> ∅)) ]}.

(** An environment for the set-up: admin-only mode written with a capital,
    three admin ids of which one is no number, a polling interval. *)
Definition environ_admin : gmap string string :=
  {[ "BOT_TOKEN" := "123456:ABC"; "BOT_MODE" := "Admin";
     "ADMIN_IDS" := "42, x,7"; "POLL_INTERVAL" := "10" ]}.

Definition config_admin : gmap string json :=
  <["poll_interval" := JInt 10]>
  (<["admin_ids" := JArr [JInt 42; JInt 7]]>
  (<["mode" := JStr "admin"]>
  (<["bot_token" := JStr "123456:ABC"]> (default_state (JStr "linux"))))).

(** No two neighbours of a list are equal. *)
Fixpoint adjacent_differ {A} (l : list A) : Prop :=
  match l with
  | a :: l' =>
      match l' with
      | b :: _ => a ≠ b
      | [] => True
      end ∧ adjacent_differ l'
  | [] => True
  end.

(** The laptop on mains. *)
Definition env_laptop_plugged : probe_env :=
  {| sensors_battery := Ok (Some {| sb_percent := Some f95;
                                    sb_power_plugged := Some true;
                                    sb_secsleft := Some (-2) |});
     power_supply_isdir := false;
     power_supply_listdir := Ok [];
     termux_battery_status :=
       Raise (Exn "FileNotFoundError"
                  "[Errno 2] No such file or directory: 'termux-battery-status'") |}.

(** * Properties *)

(** ** The monad of traces *)

Lemma bind_ok {A B} (t : list event) (a : A) (k : A → io B) :
  ((t, Ok a) : io A) ≫= k = ((t ++ trace (k a))%list, outcome (k a)).
Proof. unfold mbind, io_bind, bind, trace, outcome. by destruct (k a). Qed.

Lemma outcome_bind {A B} (m : io A) (k : A → io B) :
  outcome (m ≫= k) = match outcome m with
                     | Ok a => outcome (k a)
                     | Raise e => Raise e
                     end.
Proof.
  destruct m as [t [a|e]]; [|done].
  unfold mbind, io_bind, bind, outcome; simpl. by destruct (k a).
Qed.

Lemma trace_bind {A B} (m : io A) (k : A → io B) :
  trace (m ≫= k) = (trace m ++ match outcome m with
                               | Ok a => trace (k a)
                               | Raise e => []
                               end)%list.
Proof.
  destruct m as [t [a|e]]; simpl.
  - unfold mbind, io_bind, bind, trace; simpl. by destruct (k a).
  - unfold trace; simpl. by rewrite app_nil_r.
Qed.

Lemma outcome_try_except {A} (m : io A) (h : exn → io A) :
  outcome (try_except m h) = match outcome m with
                             | Ok a => Ok a
                             | Raise e => outcome (h e)
                             end.
Proof.
  destruct m as [t [a|e]]; [done|].
  unfold try_except, outcome; simpl. by destruct (h e).
Qed.

Lemma outcome_ret {A} (a : A) : outcome (mret a : io A) = Ok a.
Proof. reflexivity. Qed.

Lemma outcome_lift {A} (r : result A) : outcome (lift r) = r.
Proof. reflexivity. Qed.

Lemma outcome_emit (ev : event) : outcome (emit ev) = Ok tt.
Proof. reflexivity. Qed.

Lemma trace_ret {A} (a : A) : trace (mret a : io A) = [].
Proof. reflexivity. Qed.

Lemma trace_lift {A} (r : result A) : trace (lift r) = [].
Proof. reflexivity. Qed.

Lemma trace_emit (ev : event) : trace (emit ev) = [ev].
Proof. reflexivity. Qed.

Lemma trace_try_except {A} (m : io A) (h : exn → io A) :
  trace (try_except m h) = (trace m ++ match outcome m with
                                       | Ok a => []
                                       | Raise e => trace (h e)
                                       end)%list.
Proof.
  destruct m as [t [a|e]]; unfold try_except, trace, outcome; simpl.
  - by rewrite app_nil_r.
  - by destruct (h e).
Qed.

Create Rewrite HintDb io.
#[local] Hint Rewrite @outcome_bind @outcome_try_except @outcome_ret @outcome_lift
  outcome_emit @trace_bind @trace_try_except @trace_ret @trace_lift trace_emit : io.

(** Push [outcome] and [trace] through the monadic structure. *)
Ltac io_step := repeat (autorewrite with io; cbv beta iota).

(** ** Access control *)

(** C7. In multi-user mode [_is_allowed] accepts every chat id; in
    admin-only mode it accepts exactly the members of the admin set.  In
    particular id 7 is accepted and id 8 rejected with admin set {7} in
    admin-only mode, and id 8 is accepted in multi-user mode. *)
Theorem is_allowed_by_mode (rest : bot) (adminIds : gset Z) (subscriberId : Z) :
  isAllowed rest MultiUser adminIds subscriberId = true
  ∧ (isAllowed rest AdminOnly adminIds subscriberId = true ↔ subscriberId ∈ adminIds)
  ∧ isAllowed rest AdminOnly {[7]} 7 = true
  ∧ isAllowed rest AdminOnly {[7]} 8 = false
  ∧ isAllowed rest MultiUser {[7]} 8 = true.
Proof.
  unfold isAllowed, PowerMonitorBot._is_allowed; simpl.
  split; [reflexivity|].
  split; [apply bool_decide_eq_true|].
  split; [apply bool_decide_eq_true; set_solver|].
  split; [apply bool_decide_eq_false; set_solver|reflexivity].
Qed.

(** ** Time left *)

(** C10. Without psutil, [format_time_left] answers "unlimited" for every
    integer: the guard evaluates to the constant -1, which is true.  The
    sentinels of psutil are compared only when the module is there; then
    other values are split into hours and minutes. *)
Theorem format_time_left_without_psutil (secs : Z) (p : psutil_module) :
  format_time_left None (Some secs) = "unlimited"
  ∧ format_time_left None None = "unknown"
  ∧ format_time_left (Some p) (Some secs)
    = if (secs =? POWER_TIME_UNLIMITED p)%Z then "unlimited"
      else if (secs =? POWER_TIME_UNKNOWN p)%Z then "unknown"
      else pretty (secs `div` 3600) +:+ "h " +:+ pretty ((secs `mod` 3600) `div` 60) +:+ "m".
Proof.
  unfold format_time_left. cbn [truthy negb].
  split; [|split].
  - (* [-1] is not zero *)
    by replace (-1 =? 0)%Z with false by reflexivity.
  - reflexivity.
  - by destruct (secs =? POWER_TIME_UNLIMITED p)%Z, (secs =? POWER_TIME_UNKNOWN p)%Z.
Qed.

Example format_time_left_90_minutes :
  format_time_left (Some (PsutilModule (-2) (-1))) (Some 5400) = "1h 30m".
Proof. reflexivity. Qed.

(** ** Status line *)

Example format_0f_rounds_half_to_even :
  format_0f f95 = "95" ∧ format_0f f12_5 = "12" ∧ format_0f f13_5 = "14"
  ∧ format_0f (FFinite true 1 (-2)) = "-0".
Proof. vm_compute. done. Qed.

(** C8, as the spec words it, fails: without a snapshot the text is not
    "unavailable", and a snapshot whose plugged value is unknown gets
    neither an ON nor an OFF word. *)
Lemma snapshot_text_differs_from_spec :
  snapshot_text None ≠ "unavailable"
  ∧ snapshot_text (Some {| percent := Some f95; power_plugged := Some true;
                           secsleft := None; source := "psutil" |})
    ≠ "ON - Battery: 95%"
  ∧ snapshot_text (Some {| percent := None; power_plugged := None;
                           secsleft := None; source := "psutil" |})
    = "Unknown - Battery: n/a".
Proof. vm_compute. repeat split; discriminate. Qed.

(** C8, amended. Without a snapshot the text is "Battery information not
    available."; with one it is the status word ("Power ON", "Power OFF",
    or "Unknown" when the plugged value is unknown), then " - Battery: ",
    then the percent rounded to an integer and followed by "%", or "n/a"
    when the percent is absent. *)
Theorem snapshot_text_cases :
  snapshot_text None = "Battery information not available."
  ∧ (∀ pct plugged secs src,
       snapshot_text (Some {| percent := pct; power_plugged := plugged;
                              secsleft := secs; source := src |})
       = status_word plugged +:+ " - Battery: " +:+ battery_figure pct)
  ∧ (∀ secs src,
       snapshot_text (Some {| percent := Some f95; power_plugged := Some true;
                              secsleft := secs; source := src |})
       = "Power ON - Battery: 95%"
       ∧ snapshot_text (Some {| percent := Some f12_5; power_plugged := Some false;
                                secsleft := secs; source := src |})
         = "Power OFF - Battery: 12%"
       ∧ snapshot_text (Some {| percent := None; power_plugged := Some false;
                                secsleft := secs; source := src |})
         = "Power OFF - Battery: n/a").
Proof.
  split; [reflexivity|]. split.
  - intros pct [[|]|] secs src; destruct pct; reflexivity.
  - intros secs src. vm_compute. done.
Qed.

(** ** Notifier *)

(** One delivery is one attempt and never raises, whatever the API does. *)
Lemma deliver_once (api : telebot_api) (text : string) (cid : Z) :
  outcome (PowerMonitorBot.deliver api text cid) = Ok tt
  ∧ sends (trace (PowerMonitorBot.deliver api text cid)) = [(cid, text)]
  ∧ notify_calls (trace (PowerMonitorBot.deliver api text cid)) = [].
Proof.
  unfold PowerMonitorBot.deliver, try_except, outcome, trace; simpl.
  destruct (send_message api cid text) as [[]|e]; simpl; auto.
Qed.

Lemma for_each_deliver (api : telebot_api) (text : string) (cids : list Z) :
  outcome (PowerMonitorBot.for_each cids (PowerMonitorBot.deliver api text)) = Ok tt
  ∧ sends (trace (PowerMonitorBot.for_each cids (PowerMonitorBot.deliver api text)))
    = (fun cid => (cid, text)) <$> cids
  ∧ notify_calls (trace (PowerMonitorBot.for_each cids (PowerMonitorBot.deliver api text)))
    = [].
Proof.
  induction cids as [|cid cids (IHo & IHs & IHn)]; [done|].
  destruct (deliver_once api text cid) as (Ho & Hs & Hn).
  cbn [PowerMonitorBot.for_each]. unfold mbind, io_bind, bind.
  destruct (PowerMonitorBot.deliver api text cid) as [t r]; simpl in Ho, Hs, Hn; subst r.
  destruct (PowerMonitorBot.for_each cids _) as [t' r']; simpl in *.
  unfold sends, notify_calls in *.
  by rewrite !omap_app, Hs, IHs, Hn, IHn.
Qed.

(** What one call of [_notify_all] leaves in the trace. *)
Lemma notify_all_trace (api : telebot_api) (self : bot) (text : string) :
  outcome (PowerMonitorBot._notify_all api self text) = Ok tt
  ∧ sends (trace (PowerMonitorBot._notify_all api self text))
    = (fun cid => (cid, text)) <$> elements (recipients self)
  ∧ notify_calls (trace (PowerMonitorBot._notify_all api self text)) = [text].
Proof.
  unfold PowerMonitorBot._notify_all.
  replace (if eq_str (mode self) "multi" then elements (registered_ids self)
           else elements (admin_ids self))
    with (elements (recipients self))
    by (unfold recipients; destruct (eq_str _ _); done).
  generalize (elements (recipients self)); intros cids.
  destruct (for_each_deliver api text cids) as (Ho & Hs & Hn).
  destruct cids as [|cid cids]; [done|].
  unfold mbind, io_bind, bind, emit.
  destruct (PowerMonitorBot.for_each _ _) as [t r]; simpl in *.
  by rewrite Ho, Hs, Hn.
Qed.

(** C6. [_notify_all] returns without raising whatever [send_message] does;
    it calls [send_message] once for each member of the recipient set and
    for nobody else, with the text it was given; a failed delivery does not
    stop the loop; with an empty recipient set it makes no call. *)
Theorem notify_all_attempts_each_recipient_once
    (api : telebot_api) (self : bot) (text : string) :
  outcome (PowerMonitorBot._notify_all api self text) = Ok tt
  ∧ NoDup (sends (trace (PowerMonitorBot._notify_all api self text)))
  ∧ length (sends (trace (PowerMonitorBot._notify_all api self text)))
    = size (recipients self)
  ∧ (∀ cid msg, (cid, msg) ∈ sends (trace (PowerMonitorBot._notify_all api self text))
                ↔ cid ∈ recipients self ∧ msg = text)
  ∧ (recipients self = ∅
     → sends (trace (PowerMonitorBot._notify_all api self text)) = []).
Proof.
  destruct (notify_all_trace api self text) as (Ho & Hs & _).
  rewrite Hs. split; [done|]. split; [|split; [|split]].
  - apply NoDup_fmap_2; [intros x y; congruence|apply NoDup_elements].
  - by rewrite length_fmap.
  - intros cid msg. rewrite list_elem_of_fmap. split.
    + intros (c & [= -> ->] & Hc). by apply elem_of_elements in Hc.
    + intros [Hc ->]. exists cid. by rewrite elem_of_elements.
  - intros ->. by rewrite elements_empty.
Qed.

(** ** Probe *)

(** *** What each helper returns *)

(** [read_battery_psutil] never raises, and a snapshot of it carries
    [bool(b.power_plugged)]. *)
Lemma read_battery_psutil_outcome (psutil : option psutil_module) (env : probe_env) :
  outcome (read_battery_psutil psutil env)
  = Ok (match psutil, sensors_battery env with
        | Some _, Ok (Some b) =>
            Some {| percent := sb_percent b;
                    power_plugged := Some (bool_of_tristate (sb_power_plugged b));
                    secsleft := sb_secsleft b;
                    source := "psutil" |}
        | _, _ => None
        end).
Proof.
  unfold read_battery_psutil. io_step. destruct psutil as [p|]; [|done].
  io_step. destruct (sensors_battery env) as [[b|]|e]; by io_step.
Qed.

(** The [try] block of the sysfs helper computes the plugged value as a
    membership test on the status words. *)
Lemma sysfs_read_plugged (rt : pyrt) (name : string)
    (status_file capacity_file : result string) (snap : snapshot) :
  outcome (sysfs_read rt name status_file capacity_file) = Ok snap →
  ∃ status, status_file = Ok status
            ∧ power_plugged snap
              = Some (str_in (lower (strip status)) ["charging"; "full"; "pending_charge"]).
Proof.
  unfold sysfs_read. io_step. destruct status_file as [status|e]; [|done].
  io_step. destruct capacity_file as [cap|e]; [|done].
  io_step. destruct (py_float rt (JStr (strip cap))) as [pct|e]; [|done].
  io_step. intros [= <-]. eauto.
Qed.

(** The loop over the candidate directories never raises, and a snapshot
    of it carries the membership test on the status of one of them. *)
Lemma sysfs_scan_outcome (rt : pyrt) (candidates : list supply_entry) :
  ∃ st, outcome (sysfs_scan rt candidates) = Ok st
        ∧ ∀ snap, st = Some snap →
            ∃ cand status,
              cand ∈ candidates ∧ se_status cand = Some (Ok status)
              ∧ power_plugged snap
                = Some (str_in (lower (strip status)) ["charging"; "full"; "pending_charge"]).
Proof.
  induction candidates as [|cand rest (st & IHo & IHp)]; [by exists None|].
  assert (∃ st, outcome (sysfs_scan rt rest) = Ok st
                ∧ ∀ snap, st = Some snap →
                    ∃ cand' status,
                      cand' ∈ cand :: rest ∧ se_status cand' = Some (Ok status)
                      ∧ power_plugged snap
                        = Some (str_in (lower (strip status))
                                  ["charging"; "full"; "pending_charge"])) as Hrest.
  { exists st. split; [done|]. intros snap Hsnap.
    destruct (IHp snap Hsnap) as (c & status & Hc & Hrest).
    exists c, status. split; [by right|done]. }
  cbn [sysfs_scan].
  destruct (se_status cand) as [status_file|] eqn:Hstatus; [|done].
  destruct (se_capacity cand) as [capacity_file|]; [|done].
  io_step.
  destruct (outcome (sysfs_read rt (se_name cand) status_file capacity_file))
    as [snap|e] eqn:Hread; io_step; [|done].
  exists (Some snap). split; [done|]. intros ? [= <-].
  destruct (sysfs_read_plugged _ _ _ _ _ Hread) as (status & -> & ->).
  exists cand, status. split; [by left|done].
Qed.

(** [read_battery_linux_sysfs] raises exactly when the directory exists
    and listing it raises; otherwise a snapshot of it carries the
    membership test on the status of one of the listed directories. *)
Lemma read_battery_linux_sysfs_outcome (rt : pyrt) (env : probe_env) :
  match outcome (read_battery_linux_sysfs rt env) with
  | Ok st => (power_supply_isdir env = false ∨ ∃ names, power_supply_listdir env = Ok names)
             ∧ ∀ snap, st = Some snap → plugged_origin rt env snap
  | Raise e => power_supply_isdir env = true ∧ power_supply_listdir env = Raise e
  end.
Proof.
  unfold read_battery_linux_sysfs. io_step.
  destruct (power_supply_isdir env); cbn [negb]; io_step; [|by split; [left|]].
  destruct (power_supply_listdir env) as [names|e] eqn:Hnames; io_step; [|done].
  destruct (sysfs_scan_outcome rt (filter (fun e => se_isdir e = true) names))
    as (st & -> & Hp).
  split; [right; eauto|]. intros snap Hsnap.
  destruct (Hp snap Hsnap) as (cand & status & Hcand & Hstatus & Hplugged).
  right; left. exists names, cand, status.
  apply list_elem_of_filter in Hcand as [_ Hcand]. done.
Qed.

(** [read_battery_termux] never raises, and a snapshot of it carries the
    truth value of the key "plugged", false when the key is missing. *)
Lemma read_battery_termux_outcome (rt : pyrt) (env : probe_env) :
  ∃ st, outcome (read_battery_termux rt env) = Ok st
        ∧ ∀ snap, st = Some snap → plugged_origin rt env snap.
Proof.
  unfold read_battery_termux. io_step.
  destruct (termux_battery_status env) as [result|e] eqn:Hrun; io_step; [|by exists None].
  destruct ((returncode result =? 0)%Z && str_truthy (stdout result));
    io_step; [|by exists None].
  destruct (json_loads rt (stdout result)) as [data|e] eqn:Hload; io_step; [|by exists None].
  destruct (json_get data "percentage") as [p|e]; io_step; [|by exists None].
  destruct (not_none p) as [v|]; io_step.
  - destruct (py_float rt v) as [f|e]; io_step; [|by exists None].
    destruct (json_get data "plugged") as [q|e] eqn:Hq; io_step; [|by exists None].
    eexists. split; [reflexivity|]. intros ? [= <-].
    right; right. by exists result, data, q.
  - destruct (json_get data "plugged") as [q|e] eqn:Hq; io_step; [|by exists None].
    eexists. split; [reflexivity|]. intros ? [= <-].
    right; right. by exists result, data, q.
Qed.

(** A termux answer without the key "plugged" is read as unplugged. *)
Lemma read_battery_termux_without_plugged (rt : pyrt) (env : probe_env)
    (result : completed_process) (d : gmap string json) (snap : snapshot) :
  termux_battery_status env = Ok result →
  json_loads rt (stdout result) = Ok (JObj d) →
  d !! "plugged" = None →
  outcome (read_battery_termux rt env) = Ok (Some snap) →
  power_plugged snap = Some false.
Proof.
  intros Hrun Hload Hkey. unfold read_battery_termux. io_step.
  rewrite Hrun. io_step.
  destruct ((returncode result =? 0)%Z && str_truthy (stdout result)); io_step; [|done].
  rewrite Hload. io_step. cbn [json_get]. io_step.
  destruct (not_none (d !! "percentage")) as [v|]; io_step.
  - destruct (py_float rt v) as [f|e]; io_step; [|done].
    rewrite Hkey. by intros [= <-].
  - rewrite Hkey. by intros [= <-].
Qed.

(** *** The probe as a fallback chain *)

(** [get_battery_snapshot] tries the adapters of [chain] in order and
    returns the first snapshot; an exception of an adapter ends it. *)
Lemma get_battery_snapshot_chain (rt : pyrt) (psutil : option psutil_module)
    (detected_platform : json) (env : probe_env) :
  get_battery_snapshot rt psutil detected_platform env
  = first_available rt psutil env (chain detected_platform).
Proof.
  unfold get_battery_snapshot, snapshot_after_linux, chain.
  destruct (eq_str detected_platform "linux"),
           (eq_str detected_platform "android"),
           (eq_str detected_platform "windows");
    cbn [app first_available run_adapter];
    destruct (read_battery_psutil psutil env) as [t1 [[s1|]|e1]]; try reflexivity;
    destruct (read_battery_linux_sysfs rt env) as [t2 [[s2|]|e2]]; try reflexivity;
    destruct (read_battery_termux rt env) as [t3 [[s3|]|e3]]; reflexivity.
Qed.

Lemma sysfs_scan_trace (rt : pyrt) (candidates : list supply_entry) :
  trace (sysfs_scan rt candidates) = [].
Proof.
  induction candidates as [|cand rest IH]; [done|].
  cbn [sysfs_scan].
  destruct (se_status cand) as [status_file|]; [|done].
  destruct (se_capacity cand) as [capacity_file|]; [|done].
  assert (trace (sysfs_read rt (se_name cand) status_file capacity_file) = []) as Hread.
  { unfold sysfs_read. io_step. destruct status_file; io_step; [|done].
    destruct capacity_file; io_step; [|done].
    destruct (py_float rt _); by io_step. }
  io_step. rewrite Hread.
  destruct (outcome (sysfs_read rt (se_name cand) status_file capacity_file));
    io_step; [done|]. by rewrite IH.
Qed.

(** Each helper leaves one event in the trace: its own entry. *)
Lemma run_adapter_trace (rt : pyrt) (psutil : option psutil_module) (env : probe_env)
    (a : adapter) :
  trace (run_adapter rt psutil env a) = [EvAdapter a].
Proof.
  destruct a; cbn [run_adapter].
  - unfold read_battery_psutil. io_step. destruct psutil; io_step; [|done].
    destruct (sensors_battery env) as [[b|]|e]; by io_step.
  - unfold read_battery_linux_sysfs. io_step.
    destruct (negb (power_supply_isdir env)); io_step; [done|].
    destruct (power_supply_listdir env); io_step; [|done].
    by rewrite sysfs_scan_trace.
  - unfold read_battery_termux. io_step.
    destruct (termux_battery_status env) as [result|e]; io_step; [|done].
    destruct ((returncode result =? 0)%Z && str_truthy (stdout result)); io_step; [|done].
    destruct (json_loads rt (stdout result)) as [data|e]; io_step; [|done].
    destruct (json_get data "percentage") as [p|e]; io_step; [|done].
    destruct (not_none p) as [v|]; io_step.
    + destruct (py_float rt v); io_step; [|done].
      destruct (json_get data "plugged"); by io_step.
    + destruct (json_get data "plugged"); by io_step.
Qed.





Lemma run_adapter_outcome (rt : pyrt) (psutil : option psutil_module) (env : probe_env)
    (a : adapter) :
  match outcome (run_adapter rt psutil env a) with
  | Ok st => ∀ snap, st = Some snap → plugged_origin rt env snap
  | Raise e => a = Sysfs ∧ power_supply_isdir env = true ∧ power_supply_listdir env = Raise e
  end.
Proof.
  destruct a; cbn [run_adapter].
  - rewrite read_battery_psutil_outcome.
    destruct psutil as [p|]; [|done].
    destruct (sensors_battery env) as [[b|]|e] eqn:Hb; try done.
    intros ? [= <-]. left. by exists b.
  - pose proof (read_battery_linux_sysfs_outcome rt env) as H.
    destruct (outcome (read_battery_linux_sysfs rt env)); [by destruct H|done].
  - by destruct (read_battery_termux_outcome rt env) as (st & -> & H).
Qed.

(** The probe returns a snapshot of one of its adapters, and raises only
    what listing the power-supply directory raised. *)
Lemma first_available_outcome (rt : pyrt) (psutil : option psutil_module)
    (env : probe_env) (adapters : list adapter) :
  match outcome (first_available rt psutil env adapters) with
  | Ok st => ∀ snap, st = Some snap → plugged_origin rt env snap
  | Raise e => power_supply_isdir env = true ∧ power_supply_listdir env = Raise e
  end.
Proof.
  induction adapters as [|a rest IH]; [done|].
  cbn [first_available]. io_step.
  pose proof (run_adapter_outcome rt psutil env a) as Ha.
  destruct (outcome (run_adapter rt psutil env a)) as [[snap|]|e]; io_step.
  - done.
  - done.
  - by destruct Ha as (_ & ? & ?).
Qed.

(** When the power-supply directory can be listed (or is no directory),
    the probe returns: every other failure of an adapter is absorbed. *)
Lemma probe_returns_when_listing_succeeds (rt : pyrt) (psutil : option psutil_module)
    (detected_platform : json) (env : probe_env) :
  power_supply_isdir env = false ∨ (∃ names, power_supply_listdir env = Ok names) →
  ∃ st, outcome (get_battery_snapshot rt psutil detected_platform env) = Ok st.
Proof.
  intros Hlist. rewrite get_battery_snapshot_chain.
  pose proof (first_available_outcome rt psutil env (chain detected_platform)) as H.
  destruct (outcome (first_available rt psutil env (chain detected_platform)))
    as [st|e]; [eauto|].
  destruct H as [Hdir Hraise]. destruct Hlist as [?|[names ?]]; congruence.
Qed.

(** C4 fails on the code: on a Linux host without psutil whose
    power-supply directory may not be listed, the exception of
    [os.listdir] leaves the sysfs helper and the probe, and, at the first
    read, the monitor loop.  The helper calls [os.listdir] outside its
    [try] block. *)
Theorem probe_raises_when_listing_fails :
  get_battery_snapshot numeral_rt None (JStr "linux") env_unlistable
  = ([EvAdapter Psutil; EvAdapter Sysfs], Raise permission_denied)
  ∧ outcome (run_monitor numeral_rt None scenario_api scenario_bot env_unlistable [])
    = Raise permission_denied.
Proof. split; reflexivity. Qed.

(** ** Sampler *)

Lemma set_prev_plugged_same (self : bot) :
  set_prev_plugged self (prev_plugged self) = self.
Proof. by destruct self. Qed.

Lemma known_cons (s : option snapshot) (samples : list (option snapshot)) :
  known (s :: samples) =
    match s ≫= power_plugged with
    | Some b => b :: known samples
    | None => known samples
    end.
Proof. unfold known. simpl. by destruct (s ≫= power_plugged). Qed.

Lemma last_known_cons (prev : option bool) (b : bool) (values : list bool) :
  last_known prev (b :: values) = last_known (Some b) values.
Proof. unfold last_known. rewrite last_cons. by destruct (last values). Qed.



(** Processing a sample, then the rest. *)
Lemma changes_from_cons (prev : option bool) (s : option snapshot)
    (samples : list (option snapshot)) :
  changes_from prev (known (s :: samples))
  = (tick_changes prev (s ≫= power_plugged)
     ++ changes_from (tracked_after prev (s ≫= power_plugged)) (known samples))%list.
Proof.
  rewrite known_cons.
  destruct (s ≫= power_plugged) as [b|], prev as [p|]; cbn; try done.
  by destruct (Bool.eqb b p).
Qed.

Lemma last_known_cons_sample (prev : option bool) (s : option snapshot)
    (samples : list (option snapshot)) :
  last_known prev (known (s :: samples))
  = last_known (tracked_after prev (s ≫= power_plugged)) (known samples).
Proof.
  rewrite known_cons. destruct (s ≫= power_plugged) as [b|]; [|done].
  apply last_known_cons.
Qed.

Lemma fan_out_app (self : bot) (news1 news2 : list bool) :
  fan_out self (news1 ++ news2)%list = (fan_out self news1 ++ fan_out self news2)%list.
Proof. unfold fan_out. apply bind_app. Qed.

(** Entering adapters is neither a notification nor a delivery. *)
Lemma adapter_events_quiet (entered : list adapter) :
  notify_calls (EvAdapter <$> entered) = [] ∧ sends (EvAdapter <$> entered) = [].
Proof. induction entered as [|a entered [IHn IHs]]; [done|]. by rewrite fmap_cons. Qed.

Section Sampler.
Context (api : telebot_api).

(** A tick whose probe found nothing changes nothing. *)
Lemma monitor_tick_unavailable (self : bot) (t : list event) :
  PowerMonitorBot.monitor_tick api self (t, Ok None) = (t, Ok self).
Proof.
  unfold PowerMonitorBot.monitor_tick, try_except, mbind, io_bind, bind; simpl.
  by rewrite app_nil_r.
Qed.

(** A tick whose probe raised logs the error and changes nothing. *)
Lemma monitor_tick_raise (self : bot) (t : list event) (e : exn) :
  PowerMonitorBot.monitor_tick api self (t, Raise e)
  = ((t ++ [EvPrint ("[ERROR] Exception in monitor loop: " +:+ exn_msg e)])%list, Ok self).
Proof. reflexivity. Qed.

(** A tick on the first reading, or on a reading without a plugged value
    while none is tracked, records what was read. *)
Lemma monitor_tick_untracked (self : bot) (t : list event) (snap : snapshot) :
  prev_plugged self = None →
  PowerMonitorBot.monitor_tick api self (t, Ok (Some snap))
  = (t, Ok (set_prev_plugged self (power_plugged snap))).
Proof.
  intros Hprev.
  unfold PowerMonitorBot.monitor_tick, try_except, mbind, io_bind, bind; simpl.
  rewrite Hprev; simpl. by rewrite app_nil_r.
Qed.

(** A tick on a reading equal to the tracked value, or without a plugged
    value, changes nothing. *)
Lemma monitor_tick_steady (self : bot) (t : list event) (snap : snapshot) (p : bool) :
  prev_plugged self = Some p →
  power_plugged snap = Some p ∨ power_plugged snap = None →
  PowerMonitorBot.monitor_tick api self (t, Ok (Some snap)) = (t, Ok self).
Proof.
  intros Hprev Hnow.
  unfold PowerMonitorBot.monitor_tick, try_except, mbind, io_bind, bind; simpl.
  rewrite Hprev. destruct Hnow as [-> | ->]; simpl.
  - rewrite Bool.eqb_reflx; simpl. by rewrite app_nil_r.
  - by rewrite app_nil_r.
Qed.

(** A tick on a reading that differs from the tracked value calls
    [_notify_all] once, with the message of the new value, and tracks the
    new value. *)
Lemma monitor_tick_change (self : bot) (t : list event) (snap : snapshot) (p now : bool) :
  prev_plugged self = Some p →
  power_plugged snap = Some now →
  now ≠ p →
  ∃ t', PowerMonitorBot.monitor_tick api self (t, Ok (Some snap))
        = ((t ++ t')%list, Ok (set_prev_plugged self (Some now)))
        ∧ notify_calls t' = [message_for now]
        ∧ sends t' = (fun cid => (cid, message_for now)) <$> elements (recipients self).
Proof.
  intros Hprev Hnow Hne.
  destruct (notify_all_trace api self (message_for now)) as (Ho & Hs & Hn).
  unfold PowerMonitorBot.monitor_tick, try_except, mbind, io_bind, bind; simpl.
  rewrite Hprev, Hnow.
  replace (Bool.eqb now p) with false
    by (symmetry; by apply Bool.eqb_false_iff).
  simpl. fold (message_for now).
  destruct (PowerMonitorBot._notify_all api self (message_for now)) as [tn rn].
  simpl in Ho, Hs, Hn. subst rn.
  eexists. split; [reflexivity|]. rewrite app_nil_r. simpl. by rewrite Hs, Hn.
Qed.

(** Every tick, whatever its probe did: it ends normally, it tracks the
    value read if there is one, and it notifies exactly when that value
    differs from the tracked one. *)
Lemma monitor_tick_any (self : bot) (t : list event) (r : result (option snapshot)) :
  ∃ t', PowerMonitorBot.monitor_tick api self (t, r)
        = ((t ++ t')%list,
           Ok (set_prev_plugged self
                 (tracked_after (prev_plugged self) (sample_of r ≫= power_plugged))))
        ∧ notify_calls t'
          = message_for <$> tick_changes (prev_plugged self) (sample_of r ≫= power_plugged)
        ∧ sends t'
          = fan_out self (tick_changes (prev_plugged self) (sample_of r ≫= power_plugged)).
Proof.
  destruct r as [[snap|]|e]; cbn [sample_of mbind option_bind].
  - destruct (prev_plugged self) as [prev|] eqn:Hprev.
    + destruct (power_plugged snap) as [now|] eqn:Hnow; cbn [tracked_after tick_changes].
      * destruct (decide (now = prev)) as [->|Hne].
        -- rewrite (monitor_tick_steady _ _ _ prev) by auto.
           exists []. rewrite app_nil_r, Bool.eqb_reflx, <- Hprev, set_prev_plugged_same.
           done.
        -- destruct (monitor_tick_change self t snap prev now) as (t' & -> & Hn & Hs);
             [done..|].
           exists t'. replace (Bool.eqb now prev) with false
             by (symmetry; by apply Bool.eqb_false_iff).
           split; [done|]. split; [done|].
           unfold fan_out. cbn. by rewrite app_nil_r.
      * rewrite (monitor_tick_steady _ _ _ prev) by auto.
        exists []. by rewrite app_nil_r, <- Hprev, set_prev_plugged_same.
    + rewrite monitor_tick_untracked by done.
      exists []. rewrite app_nil_r. by destruct (power_plugged snap).
  - rewrite monitor_tick_unavailable. exists [].
    rewrite app_nil_r, set_prev_plugged_same. by destruct (prev_plugged self).
  - rewrite monitor_tick_raise. cbn [tracked_after]. rewrite set_prev_plugged_same.
    eexists. split; [reflexivity|]. by destruct (prev_plugged self).
Qed.

Lemma monitor_ticks_cons (self : bot) (probe : io (option snapshot))
    (probes : list (io (option snapshot))) :
  PowerMonitorBot.monitor_ticks api self (probe :: probes)
  = PowerMonitorBot.monitor_tick api self probe
    ≫= fun self' => PowerMonitorBot.monitor_ticks api self' probes.
Proof. reflexivity. Qed.

(** The loop on a sequence of probes: it never raises, it ends tracking
    the last known value, and its calls of [_notify_all] and its
    deliveries are those of the changes of the known values. *)
Lemma monitor_ticks_probes (probes : list (list adapter * result (option snapshot)))
    (self : bot) :
  ∃ t,
    PowerMonitorBot.monitor_ticks api self (probe_of <$> probes)
    = (t, Ok (set_prev_plugged self
                (last_known (prev_plugged self) (known (samples_of probes)))))
    ∧ notify_calls t
      = message_for <$> changes_from (prev_plugged self) (known (samples_of probes))
    ∧ sends t = fan_out self (changes_from (prev_plugged self) (known (samples_of probes))).
Proof.
  revert self. induction probes as [|[entered r] probes IH]; intros self.
  { exists []. rewrite set_prev_plugged_same.
    split; [done|]. by destruct (prev_plugged self). }
  unfold samples_of. rewrite !fmap_cons. fold (samples_of probes).
  rewrite monitor_ticks_cons, changes_from_cons, last_known_cons_sample. cbn [snd].
  destruct (monitor_tick_any self (EvAdapter <$> entered) r) as (t1 & Hrun1 & Hn1 & Hs1).
  change (probe_of (entered, r)) with ((EvAdapter <$> entered, r) : io (option snapshot)).
  rewrite Hrun1, bind_ok. clear Hrun1.
  destruct (IH (set_prev_plugged self
                  (tracked_after (prev_plugged self) (sample_of r ≫= power_plugged))))
    as (t & Hrun & Hn & Hs).
  rewrite Hrun. cbn [trace outcome fst snd prev_plugged set_prev_plugged] in *.
  eexists. split; [reflexivity|].
  destruct (adapter_events_quiet entered) as [Hqn Hqs].
  split.
  - unfold notify_calls in *. by rewrite !omap_app, Hqn, Hn1, Hn, fmap_app.
  - unfold sends in *. rewrite !omap_app, Hqs, Hs1, Hs, fan_out_app. done.
Qed.

End Sampler.

Lemma transitions_known_cons (first : option snapshot) (rest : list (option snapshot)) :
  transitions (known (first :: rest))
  = changes_from (first ≫= power_plugged) (known rest).
Proof. rewrite known_cons. by destruct (first ≫= power_plugged). Qed.

(** The first read stores what the probe returned, whatever was tracked. *)
Lemma monitor_first_read_returned (self : bot) (entered : list adapter)
    (first : option snapshot) :
  ∃ t, PowerMonitorBot.monitor_first_read self (probe_of (entered, Ok first))
       = (t, Ok (set_prev_plugged self (first ≫= power_plugged)))
       ∧ notify_calls t = [] ∧ sends t = [].
Proof.
  destruct (adapter_events_quiet entered) as [Hqn Hqs].
  unfold PowerMonitorBot.monitor_first_read, probe_of, mbind at 1 2, io_bind, bind, emit.
  cbn [fst snd].
  destruct first as [snap|]; cbn; eexists; (split; [reflexivity|]);
    unfold notify_calls, sends in *; cbn; rewrite ?omap_app, ?Hqn, ?Hqs; done.
Qed.


(** The scenario of the specification: two notifications, "power off" then
    "power on", each attempted for the three subscribers (in the order
    the set enumerates them) although the delivery to subscriber 2 fails. *)
Example scenario_two_notifications :
  notify_calls (trace scenario_run)
  = [PowerMonitorBot.msg_power_off; PowerMonitorBot.msg_power_on]
  ∧ sends (trace scenario_run)
    = [(3, PowerMonitorBot.msg_power_off); (2, PowerMonitorBot.msg_power_off);
       (1, PowerMonitorBot.msg_power_off);
       (3, PowerMonitorBot.msg_power_on); (2, PowerMonitorBot.msg_power_on);
       (1, PowerMonitorBot.msg_power_on)]
  ∧ prev_plugged <$> outcome_value (outcome scenario_run) = Some (Some true).
Proof. vm_compute. done. Qed.

(** Ticks whose probes found nothing change nothing, however many they
    are and whichever adapters they entered. *)
Lemma monitor_ticks_unavailable (api : telebot_api) (self : bot)
    (entered : list (list adapter)) :
  PowerMonitorBot.monitor_ticks api self ((fun e => probe_of (e, Ok None)) <$> entered)
  = (EvAdapter <$> concat entered, Ok self).
Proof.
  induction entered as [|e entered IH]; [done|].
  rewrite fmap_cons, monitor_ticks_cons.
  change (probe_of (e, Ok None)) with ((EvAdapter <$> e, Ok None) : io (option snapshot)).
  rewrite monitor_tick_unavailable, bind_ok, IH. cbn [trace outcome fst snd concat].
  by rewrite fmap_app.
Qed.

(** A tick always ends normally and never forgets a tracked value. *)
Lemma monitor_tick_keeps_tracking (api : telebot_api) (self : bot)
    (probe : io (option snapshot)) :
  ∃ t self', PowerMonitorBot.monitor_tick api self probe = (t, Ok self')
             ∧ (prev_plugged self' = None → prev_plugged self = None).
Proof.
  destruct probe as [t r].
  destruct (monitor_tick_any api self t r) as (t' & -> & _).
  eexists _, _. split; [reflexivity|]. cbn [prev_plugged set_prev_plugged].
  destruct (sample_of r ≫= power_plugged); [done|]. by cbn.
Qed.

Lemma init_starts_untracked (api : telebot_api) (rt : pyrt) (detected : string)
    (config : gmap string json) (self : bot) :
  PowerMonitorBot.__init__ api rt detected config = Ok self → prev_plugged self = None.
Proof.
  unfold PowerMonitorBot.__init__. intros H.
  repeat match type of H with
         | match ?x with _ => _ end = _ => destruct x; try discriminate
         | (if ?x then _ else _) = _ => destruct x; try discriminate
         end.
  by injection H as <-.
Qed.

(** C2. A tick whose probe returns nothing leaves the bot, and so the
    tracked plugged value, as it was and adds nothing to the trace of the
    probe: no notification; so does any number of such ticks in a row.  No
    tick, whatever its probe does, replaces a tracked value by the unknown
    one: the value is unknown only as the constructor sets it, and a first
    read that finds nothing leaves it so. *)
Theorem unavailable_sample_changes_nothing
    (api : telebot_api) (self : bot) (t : list event) (entered : list (list adapter)) :
  PowerMonitorBot.monitor_tick api self (t, Ok None) = (t, Ok self)
  ∧ PowerMonitorBot.monitor_ticks api self ((fun e => probe_of (e, Ok None)) <$> entered)
    = (EvAdapter <$> concat entered, Ok self)
  ∧ notify_calls (EvAdapter <$> concat entered) = []
  ∧ sends (EvAdapter <$> concat entered) = []
  ∧ (∀ probe, ∃ t' self',
       PowerMonitorBot.monitor_tick api self probe = (t', Ok self')
       ∧ (prev_plugged self' = None → prev_plugged self = None))
  ∧ (∀ rt detected config,
       PowerMonitorBot.__init__ api rt detected config = Ok self →
       prev_plugged self = None
       ∧ outcome (PowerMonitorBot.monitor_first_read self (t, Ok None)) = Ok self).
Proof.
  split; [apply monitor_tick_unavailable|].
  split; [apply monitor_ticks_unavailable|].
  split; [apply adapter_events_quiet|].
  split; [apply adapter_events_quiet|].
  split; [apply monitor_tick_keeps_tracking|].
  intros rt detected config Hinit.
  pose proof (init_starts_untracked _ _ _ _ _ Hinit) as Hprev.
  split; [done|].
  unfold PowerMonitorBot.monitor_first_read. cbn.
  rewrite <- Hprev. by rewrite set_prev_plugged_same.
Qed.



(** ** Probe and sampler together *)

(** C9. A snapshot the probe returns carries a definite plugged value:
    psutil's value through [bool()], the membership test of the sysfs
    helper, or the truth value of termux's key "plugged" (false when the
    key is missing).  So a tick of the monitor on it tracks that value:
    the branch for an unknown value is not taken. *)
Theorem probe_snapshot_plugged_is_definite
    (rt : pyrt) (psutil : option psutil_module) (detected_platform : json)
    (env : probe_env) (snap : snapshot) :
  outcome (get_battery_snapshot rt psutil detected_platform env) = Ok (Some snap) →
  plugged_origin rt env snap
  ∧ ∃ b, power_plugged snap = Some b
         ∧ ∀ api self t, ∃ t',
             PowerMonitorBot.monitor_tick api self (t, Ok (Some snap))
             = (t', Ok (set_prev_plugged self (Some b))).
Proof.
  intros Hprobe. rewrite get_battery_snapshot_chain in Hprobe.
  pose proof (first_available_outcome rt psutil env (chain detected_platform)) as H.
  rewrite Hprobe in H. specialize (H snap eq_refl). split; [done|].
  assert (∃ b, power_plugged snap = Some b) as [b Hb].
  { destruct H as [(? & _ & ->)|[(? & ? & ? & _ & _ & _ & ->)|(? & ? & ? & _ & _ & _ & ->)]];
      eauto. }
  exists b. split; [done|]. intros api self t.
  destruct (prev_plugged self) as [prev|] eqn:Hprev.
  - destruct (decide (b = prev)) as [->|Hne].
    + rewrite (monitor_tick_steady _ _ _ _ prev) by auto.
      exists t. by rewrite <- Hprev, set_prev_plugged_same.
    + destruct (monitor_tick_change api self t snap prev b) as (t' & -> & _); eauto.
  - rewrite monitor_tick_untracked by done. rewrite Hb. eauto.
Qed.

Lemma probe_snapshot_plugged_is_definite_witness :
  outcome (get_battery_snapshot numeral_rt psutil_present (JStr "windows") env_laptop)
  = Ok (Some laptop_snapshot)
  ∧ plugged_origin numeral_rt env_laptop laptop_snapshot
  ∧ ∃ b, power_plugged laptop_snapshot = Some b
         ∧ ∀ api self t, ∃ t',
             PowerMonitorBot.monitor_tick api self (t, Ok (Some laptop_snapshot))
             = (t', Ok (set_prev_plugged self (Some b))).
Proof.
  split; [reflexivity|].
  apply (probe_snapshot_plugged_is_definite numeral_rt psutil_present
           (JStr "windows") env_laptop laptop_snapshot).
  reflexivity.
Defined.


(** ** Registry persistence *)



Lemma int_set_ints (ids : list Z) :
  PowerMonitorBot.int_set (JInt <$> ids) = Ok (list_to_set ids).
Proof.
  induction ids as [|z ids IH]; [done|].
  rewrite fmap_cons. cbn [PowerMonitorBot.int_set]. by rewrite IH.
Qed.


(** A write without fault leaves the document in the data file and no
    temporary file. *)
Lemma safe_write_json_done (data : json) (fs : filesystem) :
  safe_write_json NoFault DATA_FILE data fs
  = (true, <[DATA_FILE := Json data]> (delete TEMP_DATA_FILE fs)).
Proof.
  unfold safe_write_json, os_replace.
  rewrite lookup_insert_eq. f_equal. f_equal.
  apply map_eq. intros k.
  destruct (decide (k = TEMP_DATA_FILE)) as [->|Hk].
  - by rewrite !lookup_delete_eq.
  - by rewrite !lookup_delete_ne, !lookup_insert_ne.
Qed.

(** Whatever fault a write suffers, the data file keeps its old content
    or holds the new document. *)
Lemma safe_write_json_atomic (wf : write_fault) (data : json) (fs : filesystem) :
  (safe_write_json wf DATA_FILE data fs).2 !! DATA_FILE = fs !! DATA_FILE
  ∨ (safe_write_json wf DATA_FILE data fs).2 !! DATA_FILE = Some (Json data).
Proof.
  destruct wf.
  - right. rewrite safe_write_json_done. cbn. by rewrite lookup_insert_eq.
  - by left.
  - left. cbn. by rewrite lookup_insert_ne.
  - left. cbn. by rewrite !lookup_insert_ne.
Qed.

Lemma persist_registered_saves (self : bot) (fs : filesystem) :
  data_file_regular fs →
  ∃ d, PowerMonitorBot._persist_registered NoFault self fs
       = <[DATA_FILE := Json (JObj d)]> (delete TEMP_DATA_FILE fs)
       ∧ saved_as self d.
Proof.
  unfold data_file_regular, PowerMonitorBot._persist_registered. intros Hreg.
  set (cfg := match safe_read_json DATA_FILE fs with
              | Some v => if truthy v then v else JObj ∅
              | None => JObj ∅
              end).
  assert (∃ d, cfg = JObj d) as [d ->].
  { subst cfg. destruct (safe_read_json DATA_FILE fs) as [v|]; [|eauto].
    destruct v; try (rewrite Hreg; eauto). destruct (truthy (JObj d)); eauto. }
  eexists. rewrite safe_write_json_done. split; [reflexivity|].
  unfold saved_as. repeat split.
  all: repeat (rewrite lookup_insert_ne by done); by rewrite lookup_insert_eq.
Qed.







(** The registration of the witness, computed: the three subscribers and
    the new one are read back. *)
Example registration_reloaded :
  registered_ids after_registration.1 = {[1; 2; 3; 7]}
  ∧ match main scenario_api numeral_rt "linux" no_answers NoFault after_registration.2 with
    | Started pm _ => bool_decide (registered_ids pm = {[1; 2; 3; 7]})
    | _ => false
    end = true.
Proof. split; [by vm_compute|]. by vm_compute. Qed.


(** * Further properties *)

(** ** The probe *)



(** X2. The only exception that leaves the probe is the one [os.listdir]
    raises on the power-supply directory, and only on linux or android,
    after the sysfs helper was entered. *)
Theorem probe_exception_is_listing_failure (rt : pyrt) (psutil : option psutil_module)
    (detected_platform : json) (env : probe_env) (e : exn) :
  outcome (get_battery_snapshot rt psutil detected_platform env) = Raise e →
  power_supply_isdir env = true
  ∧ power_supply_listdir env = Raise e
  ∧ eq_str detected_platform "linux" || eq_str detected_platform "android" = true
  ∧ Sysfs ∈ adapters_entered (trace (get_battery_snapshot rt psutil detected_platform env)).
Proof.
  intros Hraise.
  pose proof (first_available_outcome rt psutil env (chain detected_platform)) as Hout.
  rewrite get_battery_snapshot_chain in Hraise |- *. rewrite Hraise in Hout.
  destruct Hout as [Hdir Hlist]. split; [done|]. split; [done|].
  assert (outcome (run_adapter rt psutil env Psutil) ≠ Raise e) as Hps.
  { cbn [run_adapter]. by rewrite read_battery_psutil_outcome. }
  assert (outcome (run_adapter rt psutil env Termux) ≠ Raise e) as Hter.
  { cbn [run_adapter]. by destruct (read_battery_termux_outcome rt env) as (st & -> & _). }
  revert Hraise. unfold chain.
  destruct (eq_str detected_platform "linux"), (eq_str detected_platform "android");
    cbn [app first_available orb]; io_step; rewrite !run_adapter_trace;
    destruct (outcome (run_adapter rt psutil env Psutil)) as [[s1|]|e1]; io_step;
    try done; try congruence;
    unfold adapters_entered; cbn [omap app fmap list_fmap].
  all: rewrite ?run_adapter_trace.
  all: destruct (outcome (run_adapter rt psutil env Sysfs)) as [[s2|]|e2] eqn:Hsys;
    io_step; rewrite ?run_adapter_trace; try done;
    try (intros _; split; [done|]; cbn; set_solver).
  all: destruct (outcome (run_adapter rt psutil env Termux)) as [[s3|]|e3];
    io_step; rewrite ?run_adapter_trace, ?Hsys; io_step; try done; try congruence;
    try (intros _; split; [done|]; cbn; set_solver).
Qed.

Lemma probe_exception_is_listing_failure_witness :
  outcome (get_battery_snapshot numeral_rt None (JStr "linux") env_unlistable)
  = Raise permission_denied
  ∧ power_supply_isdir env_unlistable = true
  ∧ power_supply_listdir env_unlistable = Raise permission_denied
  ∧ eq_str (JStr "linux") "linux" || eq_str (JStr "linux") "android" = true
  ∧ Sysfs ∈ adapters_entered
             (trace (get_battery_snapshot numeral_rt None (JStr "linux") env_unlistable)).
Proof.
  split; [reflexivity|].
  apply (probe_exception_is_listing_failure numeral_rt None (JStr "linux")
           env_unlistable permission_denied).
  reflexivity.
Defined.

(** X3. On a platform that is neither linux nor android (windows, mac,
    anything else) the probe enters psutil only, returns what psutil
    returned and never raises. *)
Theorem probe_elsewhere_is_psutil_only (rt : pyrt) (psutil : option psutil_module)
    (detected_platform : json) (env : probe_env) :
  eq_str detected_platform "linux" = false →
  eq_str detected_platform "android" = false →
  trace (get_battery_snapshot rt psutil detected_platform env) = [EvAdapter Psutil]
  ∧ outcome (get_battery_snapshot rt psutil detected_platform env)
    = outcome (read_battery_psutil psutil env)
  ∧ ∃ st, outcome (get_battery_snapshot rt psutil detected_platform env) = Ok st.
Proof.
  intros Hlinux Handroid. rewrite get_battery_snapshot_chain. unfold chain.
  rewrite Hlinux, Handroid. cbn [app first_available run_adapter]. io_step.
  rewrite (run_adapter_trace rt psutil env Psutil : trace (read_battery_psutil _ _) = _).
  rewrite read_battery_psutil_outcome.
  destruct psutil as [p|]; [|eauto].
  destruct (sensors_battery env) as [[b|]|e]; eauto.
Qed.

Lemma probe_elsewhere_is_psutil_only_witness :
  eq_str (JStr "windows") "linux" = false
  ∧ eq_str (JStr "windows") "android" = false
  ∧ trace (get_battery_snapshot numeral_rt psutil_present (JStr "windows") env_laptop)
    = [EvAdapter Psutil].
Proof.
  split; [reflexivity|]. split; [reflexivity|].
  apply (probe_elsewhere_is_psutil_only numeral_rt psutil_present (JStr "windows")
           env_laptop); reflexivity.
Defined.

(** X4. A snapshot of psutil wins on every platform: the probe returns it
    and enters no other adapter. *)
Theorem probe_prefers_psutil (rt : pyrt) (psutil : option psutil_module)
    (detected_platform : json) (env : probe_env) (snap : snapshot) :
  outcome (read_battery_psutil psutil env) = Ok (Some snap) →
  get_battery_snapshot rt psutil detected_platform env
  = ([EvAdapter Psutil], Ok (Some snap)).
Proof.
  intros Hps. unfold get_battery_snapshot.
  pose proof (run_adapter_trace rt psutil env Psutil) as Htr. cbn [run_adapter] in Htr.
  destruct (read_battery_psutil psutil env) as [t r]. cbn [trace outcome fst snd] in *.
  by subst.
Qed.

Lemma probe_prefers_psutil_witness :
  outcome (read_battery_psutil psutil_present env_laptop) = Ok (Some laptop_snapshot)
  ∧ get_battery_snapshot numeral_rt psutil_present (JStr "android") env_laptop
    = ([EvAdapter Psutil], Ok (Some laptop_snapshot)).
Proof.
  split; [reflexivity|].
  apply (probe_prefers_psutil numeral_rt psutil_present (JStr "android") env_laptop
           laptop_snapshot).
  reflexivity.
Defined.

(** The loop over the candidates: where a snapshot comes from. *)
Lemma sysfs_scan_source (rt : pyrt) (candidates : list supply_entry) (snap : snapshot) :
  outcome (sysfs_scan rt candidates) = Ok (Some snap) →
  ∃ cand status cap pct,
    cand ∈ candidates
    ∧ se_status cand = Some (Ok status)
    ∧ se_capacity cand = Some (Ok cap)
    ∧ py_float rt (JStr (strip cap)) = Ok pct
    ∧ snap = {| percent := Some pct;
                power_plugged := Some (str_in (lower (strip status))
                                         ["charging"; "full"; "pending_charge"]);
                secsleft := None;
                source := "sysfs:" +:+ se_name cand |}.
Proof.
  induction candidates as [|cand rest IH]; [done|].
  assert (outcome (sysfs_scan rt rest) = Ok (Some snap) →
          ∃ cand' status cap pct,
            cand' ∈ cand :: rest
            ∧ se_status cand' = Some (Ok status)
            ∧ se_capacity cand' = Some (Ok cap)
            ∧ py_float rt (JStr (strip cap)) = Ok pct
            ∧ snap = {| percent := Some pct;
                        power_plugged := Some (str_in (lower (strip status))
                                                 ["charging"; "full"; "pending_charge"]);
                        secsleft := None;
                        source := "sysfs:" +:+ se_name cand' |}) as Hrest.
  { intros H. destruct (IH H) as (c & status & cap & pct & Hc & Hrest).
    exists c, status, cap, pct. split; [by right|done]. }
  cbn [sysfs_scan].
  destruct (se_status cand) as [status_file|] eqn:Hstatus; [|done].
  destruct (se_capacity cand) as [capacity_file|] eqn:Hcap; [|done].
  io_step. unfold sysfs_read. io_step.
  destruct status_file as [status|e]; io_step; [|done].
  destruct capacity_file as [cap|e]; io_step; [|done].
  destruct (py_float rt (JStr (strip cap))) as [pct|e] eqn:Hpct; io_step; [|done].
  intros [= <-]. exists cand, status, cap, pct. split; [by left|done].
Qed.

(** X5. A snapshot of the sysfs helper comes from a listed entry that is a
    directory and whose status and capacity files were read: its percent is
    the capacity text, stripped, as a float; its plugged value is the
    membership of the status text, stripped and lowered, in the three
    charging words; it has no time left; its source names the directory. *)
Theorem sysfs_snapshot_comes_from_a_directory (rt : pyrt) (env : probe_env)
    (snap : snapshot) :
  outcome (read_battery_linux_sysfs rt env) = Ok (Some snap) →
  ∃ names cand status cap pct,
    power_supply_isdir env = true
    ∧ power_supply_listdir env = Ok names
    ∧ cand ∈ names ∧ se_isdir cand = true
    ∧ se_status cand = Some (Ok status)
    ∧ se_capacity cand = Some (Ok cap)
    ∧ py_float rt (JStr (strip cap)) = Ok pct
    ∧ snap = {| percent := Some pct;
                power_plugged := Some (str_in (lower (strip status))
                                         ["charging"; "full"; "pending_charge"]);
                secsleft := None;
                source := "sysfs:" +:+ se_name cand |}.
Proof.
  unfold read_battery_linux_sysfs. io_step.
  destruct (power_supply_isdir env); cbn [negb]; io_step; [|done].
  destruct (power_supply_listdir env) as [names|e]; io_step; [|done].
  intros Hscan.
  destruct (sysfs_scan_source _ _ _ Hscan) as (cand & status & cap & pct & Hc & Hrest).
  apply list_elem_of_filter in Hc as [Hdir Hc].
  exists names, cand, status, cap, pct. done.
Qed.

Lemma sysfs_snapshot_comes_from_a_directory_witness :
  outcome (read_battery_linux_sysfs numeral_rt env_sysfs) = Ok (Some sysfs_snapshot)
  ∧ ∃ names cand status cap pct,
      power_supply_isdir env_sysfs = true
      ∧ power_supply_listdir env_sysfs = Ok names
      ∧ cand ∈ names ∧ se_isdir cand = true
      ∧ se_status cand = Some (Ok status)
      ∧ se_capacity cand = Some (Ok cap)
      ∧ py_float numeral_rt (JStr (strip cap)) = Ok pct
      ∧ sysfs_snapshot
        = {| percent := Some pct;
             power_plugged := Some (str_in (lower (strip status))
                                      ["charging"; "full"; "pending_charge"]);
             secsleft := None;
             source := "sysfs:" +:+ se_name cand |}.
Proof.
  split; [reflexivity|].
  apply (sysfs_snapshot_comes_from_a_directory numeral_rt env_sysfs sysfs_snapshot).
  reflexivity.
Defined.

(** X6. A candidate directory that lacks one of the two files, or whose
    files cannot be read, or whose capacity is no number, is skipped: the
    loop goes on with the next candidates as if it were not there. *)
Theorem sysfs_scan_skips_unreadable_candidate (rt : pyrt) (cand : supply_entry)
    (rest : list supply_entry) :
  (se_status cand = None ∨ se_capacity cand = None
   ∨ ∃ status_file capacity_file e,
       se_status cand = Some status_file ∧ se_capacity cand = Some capacity_file
       ∧ outcome (sysfs_read rt (se_name cand) status_file capacity_file) = Raise e) →
  sysfs_scan rt (cand :: rest) = sysfs_scan rt rest.
Proof.
  intros Hbad. cbn [sysfs_scan].
  destruct Hbad as [-> | [Hcap | (status_file & capacity_file & e & -> & -> & Hread)]].
  - done.
  - rewrite Hcap. by destruct (se_status cand).
  - assert (trace (sysfs_read rt (se_name cand) status_file capacity_file) = []) as Htr.
    { unfold sysfs_read. io_step. destruct status_file; io_step; [|done].
      destruct capacity_file; io_step; [|done].
      destruct (py_float rt _); by io_step. }
    destruct (sysfs_read rt (se_name cand) status_file capacity_file) as [t r].
    cbn [trace outcome fst snd] in *. subst.
    unfold mbind, io_bind, bind, try_except. cbn.
    by destruct (sysfs_scan rt rest).
Qed.

Lemma sysfs_scan_skips_unreadable_candidate_witness :
  se_status {| se_name := "AC"; se_isdir := true;
               se_status := None; se_capacity := None |} = None
  ∧ sysfs_scan numeral_rt
      [ {| se_name := "AC"; se_isdir := true; se_status := None; se_capacity := None |} ]
    = sysfs_scan numeral_rt [].
Proof.
  split; [reflexivity|].
  apply (sysfs_scan_skips_unreadable_candidate numeral_rt
           {| se_name := "AC"; se_isdir := true; se_status := None; se_capacity := None |}
           []).
  by left.
Defined.

(** X7. When the termux command cannot be run, or ends with a non-zero
    code, or prints nothing, the termux helper returns nothing without
    parsing anything and without raising. *)
Theorem termux_without_output_is_unavailable (rt : pyrt) (env : probe_env) :
  (∃ e, termux_battery_status env = Raise e)
  ∨ (∃ result, termux_battery_status env = Ok result
               ∧ (returncode result ≠ 0 ∨ stdout result = EmptyString)) →
  read_battery_termux rt env = ([EvAdapter Termux], Ok None).
Proof.
  unfold read_battery_termux.
  intros [[e ->] | (result & -> & Hres)]; [done|].
  assert ((returncode result =? 0)%Z && str_truthy (stdout result) = false) as Hguard.
  { destruct Hres as [Hcode | ->].
    - by apply Z.eqb_neq in Hcode as ->.
    - apply andb_false_r. }
  cbn. by rewrite Hguard.
Qed.

Lemma termux_without_output_is_unavailable_witness :
  (∃ e, termux_battery_status env_laptop = Raise e)
  ∧ read_battery_termux numeral_rt env_laptop = ([EvAdapter Termux], Ok None).
Proof.
  split; [eexists; reflexivity|].
  apply (termux_without_output_is_unavailable numeral_rt env_laptop).
  left. eexists. reflexivity.
Defined.

(** ** The text helpers *)

(** X8. With psutil, a time that is none of the two sentinels is shown as
    hours and minutes: the minutes are between 0 and 59 and the time shown
    is the given one rounded down to the minute (so a negative time of a
    few seconds is shown as -1h 59m). *)
Theorem format_time_left_hours_minutes (p : psutil_module) (secs : Z) :
  secs ≠ POWER_TIME_UNLIMITED p →
  secs ≠ POWER_TIME_UNKNOWN p →
  ∃ h m,
    format_time_left (Some p) (Some secs) = pretty h +:+ "h " +:+ pretty m +:+ "m"
    ∧ 0 ≤ m < 60
    ∧ 3600 * h + 60 * m ≤ secs < 3600 * h + 60 * m + 60.
Proof.
  intros Hunlimited Hunknown.
  exists (secs `div` 3600), ((secs `mod` 3600) `div` 60).
  unfold format_time_left. cbn [truthy].
  apply Z.eqb_neq in Hunlimited as ->. apply Z.eqb_neq in Hunknown as ->.
  split; [reflexivity|].
  pose proof (Z.div_mod secs 3600 ltac:(lia)) as Hdm.
  pose proof (Z.mod_pos_bound secs 3600 ltac:(lia)) as Hmod.
  pose proof (Z.div_mod (secs `mod` 3600) 60 ltac:(lia)) as Hdm'.
  pose proof (Z.mod_pos_bound (secs `mod` 3600) 60 ltac:(lia)) as Hmod'.
  assert (0 ≤ (secs `mod` 3600) `div` 60 < 60).
  { split; [apply Z.div_pos; lia|apply Z.div_lt_upper_bound; lia]. }
  lia.
Qed.

Lemma format_time_left_hours_minutes_witness :
  (-5) ≠ POWER_TIME_UNLIMITED (PsutilModule (-2) (-1))
  ∧ (-5) ≠ POWER_TIME_UNKNOWN (PsutilModule (-2) (-1))
  ∧ ∃ h m,
      format_time_left (Some (PsutilModule (-2) (-1))) (Some (-5))
      = pretty h +:+ "h " +:+ pretty m +:+ "m"
      ∧ 0 ≤ m < 60
      ∧ 3600 * h + 60 * m ≤ -5 < 3600 * h + 60 * m + 60.
Proof.
  split; [cbn; lia|]. split; [cbn; lia|].
  apply (format_time_left_hours_minutes (PsutilModule (-2) (-1)) (-5)); cbn; lia.
Defined.

Example format_time_left_negative :
  format_time_left (Some (PsutilModule (-2) (-1))) (Some (-5)) = "-1h 59m".
Proof. reflexivity. Qed.

(** X9. The status line tells the plugged state apart: two snapshots with
    the same line have the same plugged value (true, false or unknown),
    and no snapshot gives the line of a missing one. *)
Theorem snapshot_text_tells_plugged_state (s1 s2 : snapshot) :
  snapshot_text (Some s1) = snapshot_text (Some s2) →
  power_plugged s1 = power_plugged s2
  ∧ snapshot_text (Some s1) ≠ snapshot_text None.
Proof.
  unfold snapshot_text.
  destruct (power_plugged s1) as [[|]|], (power_plugged s2) as [[|]|];
    cbn; intros H; (split; [first [reflexivity | discriminate H]|discriminate]).
Qed.

Lemma snapshot_text_tells_plugged_state_witness :
  snapshot_text (Some laptop_snapshot) = snapshot_text (Some laptop_snapshot)
  ∧ power_plugged laptop_snapshot = power_plugged laptop_snapshot
  ∧ snapshot_text (Some laptop_snapshot) ≠ snapshot_text None.
Proof.
  split; [reflexivity|].
  apply (snapshot_text_tells_plugged_state laptop_snapshot laptop_snapshot).
  reflexivity.
Defined.

(** ** The data file *)

(** X10. A write of the data file either succeeds, and then reading the
    file gives the document written and the temporary file is gone, or
    fails, and then the file has the content it had; no file other than the
    two is touched. *)
Theorem safe_write_json_all_or_nothing (wf : write_fault) (path : string) (data : json)
    (fs : filesystem) :
  path ≠ TEMP_DATA_FILE →
  (if (safe_write_json wf path data fs).1
   then safe_read_json path (safe_write_json wf path data fs).2 = Some data
        ∧ (safe_write_json wf path data fs).2 !! TEMP_DATA_FILE = None
   else (safe_write_json wf path data fs).2 !! path = fs !! path)
  ∧ ∀ other, other ≠ path → other ≠ TEMP_DATA_FILE →
      (safe_write_json wf path data fs).2 !! other = fs !! other.
Proof.
  intros Hpath. unfold safe_write_json, os_replace, safe_read_json.
  destruct wf; cbn [fst snd]; rewrite ?lookup_insert_eq; cbn [fst snd].
  - split.
    + split; [done|].
      rewrite lookup_insert_ne by done. apply lookup_delete_eq.
    + intros other Ho Ht.
      by rewrite lookup_insert_ne, lookup_delete_ne, !lookup_insert_ne.
  - done.
  - split; [by rewrite lookup_insert_ne|].
    intros other _ Ht. by rewrite lookup_insert_ne.
  - split; [by rewrite !lookup_insert_ne|].
    intros other _ Ht. by rewrite !lookup_insert_ne.
Qed.

Lemma safe_write_json_all_or_nothing_witness :
  DATA_FILE ≠ TEMP_DATA_FILE
  ∧ safe_read_json DATA_FILE (safe_write_json NoFault DATA_FILE (JInt 1) ∅).2
    = Some (JInt 1).
Proof.
  split; [done|].
  apply (safe_write_json_all_or_nothing NoFault DATA_FILE (JInt 1) ∅). done.
Defined.

(** X11. Persisting keeps what else the data file holds: a key of the old
    document that is none of the six keys the bot assigns is found in the
    new document with the value it had. *)
Theorem persist_keeps_other_keys (self : bot) (fs : filesystem)
    (d : gmap string json) (key : string) :
  safe_read_json DATA_FILE fs = Some (JObj d) →
  d ≠ ∅ →
  key ∉ persisted_keys →
  ∃ d', safe_read_json DATA_FILE (PowerMonitorBot._persist_registered NoFault self fs)
        = Some (JObj d')
        ∧ d' !! key = d !! key.
Proof.
  intros Hread Hne Hkey. unfold PowerMonitorBot._persist_registered.
  rewrite Hread. cbn [truthy].
  rewrite bool_decide_eq_false_2 by done. cbn [negb].
  rewrite safe_write_json_done. cbn [snd].
  unfold safe_read_json. rewrite lookup_insert_eq.
  eexists. split; [reflexivity|].
  unfold persisted_keys in Hkey.
  repeat (rewrite lookup_insert_ne by (intros <-; apply Hkey; set_solver)).
  destruct (d !! "registered_ids");
    [done|rewrite lookup_insert_ne by (intros <-; apply Hkey; set_solver); done].
Qed.

Lemma persist_keeps_other_keys_witness :
  ∃ d, safe_read_json DATA_FILE fs_with_note = Some (JObj d)
       ∧ d ≠ ∅
       ∧ ("note" ∉ persisted_keys)
       ∧ ∃ d', safe_read_json DATA_FILE
                 (PowerMonitorBot._persist_registered NoFault scenario_bot fs_with_note)
               = Some (JObj d')
               ∧ d' !! "note" = d !! "note".
Proof.
  eexists. split; [reflexivity|].
  assert (<["note" := JStr "keep me"]> (<["bot_token" := JStr "123456:ABC"]> ∅)
          ≠ (∅ : gmap string json)) as Hne by apply insert_non_empty.
  assert ("note" ∉ persisted_keys) as Hkey.
  { unfold persisted_keys. intros H. repeat (apply elem_of_cons in H as [H|H]; [done|]).
    by apply elem_of_nil in H. }
  split; [exact Hne|]. split; [exact Hkey|].
  exact (persist_keeps_other_keys scenario_bot fs_with_note _ "note" eq_refl Hne Hkey).
Defined.

(** X12. When the data file holds a JSON value that is true and no
    object (a list, a number, a text), [_persist_registered] writes
    nothing, whatever the write would have done: the files stay as they
    are and the change of the bot is not saved. *)
Theorem persist_gives_up_on_non_object (wf : write_fault) (self : bot)
    (fs : filesystem) (v : json) :
  safe_read_json DATA_FILE fs = Some v →
  truthy v = true →
  (∀ d, v ≠ JObj d) →
  PowerMonitorBot._persist_registered wf self fs = fs.
Proof.
  intros Hread Htruthy Hobj. unfold PowerMonitorBot._persist_registered.
  rewrite Hread, Htruthy. destruct v; try done. by destruct (Hobj d).
Qed.

Lemma persist_gives_up_on_non_object_witness :
  safe_read_json DATA_FILE fs_with_list = Some (JArr [JInt 1])
  ∧ truthy (JArr [JInt 1]) = true
  ∧ (∀ d, JArr [JInt 1] ≠ JObj d)
  ∧ PowerMonitorBot._persist_registered NoFault scenario_bot fs_with_list = fs_with_list.
Proof.
  split; [reflexivity|]. split; [reflexivity|].
  assert (∀ d : gmap string json, JArr [JInt 1] ≠ JObj d) as Hobj by (intros d; discriminate).
  split; [exact Hobj|].
  exact (persist_gives_up_on_non_object NoFault scenario_bot fs_with_list _
           eq_refl eq_refl Hobj).
Defined.

(** X13. Whatever fault the write suffers, after [_persist_registered] the
    data file holds what it held before or the full document of the bot,
    never anything else. *)
Theorem persist_is_atomic (wf : write_fault) (self : bot) (fs : filesystem) :
  data_file_regular fs →
  PowerMonitorBot._persist_registered wf self fs !! DATA_FILE = fs !! DATA_FILE
  ∨ ∃ d, PowerMonitorBot._persist_registered wf self fs !! DATA_FILE
         = Some (Json (JObj d))
         ∧ saved_as self d.
Proof.
  intros Hreg.
  destruct (persist_registered_saves self fs Hreg) as (d & Hsaved & Hd).
  unfold PowerMonitorBot._persist_registered in *.
  destruct (match safe_read_json DATA_FILE fs with
            | Some v => if truthy v then v else JObj ∅
            | None => JObj ∅
            end) as [| | | | | |cfg]; try by left.
  match goal with
  | |- context [safe_write_json wf DATA_FILE ?data fs] =>
      destruct (safe_write_json_atomic wf data fs) as [Hold|Hnew];
      [by left|right]
  end.
  rewrite safe_write_json_done in Hsaved. cbn [snd] in Hsaved.
  exists d. split; [|done]. rewrite Hnew.
  assert ((<[DATA_FILE:=Json (JObj d)]> (delete TEMP_DATA_FILE fs) : filesystem)
            !! DATA_FILE = Some (Json (JObj d))) as Hlook by apply lookup_insert_eq.
  rewrite <- Hsaved in Hlook. by rewrite lookup_insert_eq in Hlook.
Qed.

Lemma persist_is_atomic_witness :
  data_file_regular ∅
  ∧ (PowerMonitorBot._persist_registered ReplaceFails scenario_bot ∅ !! DATA_FILE
     = (∅ : filesystem) !! DATA_FILE
     ∨ ∃ d, PowerMonitorBot._persist_registered ReplaceFails scenario_bot ∅ !! DATA_FILE
            = Some (Json (JObj d))
            ∧ saved_as scenario_bot d).
Proof.
  split; [exact I|].
  apply (persist_is_atomic ReplaceFails scenario_bot ∅). exact I.
Defined.

(** ** The registry *)

(** X14. Registering twice is registering once, and unregistering twice is
    unregistering once: the second command changes neither the bot nor the
    files, whatever the writes do. *)
Theorem membership_commands_are_idempotent (rt : pyrt)
    (wf_setup wf wf_setup' wf' : write_fault) (cid : Z) (self : bot) (fs : filesystem) :
  PowerMonitorBot.handle rt wf_setup' wf' (PowerMonitorBot.Register cid)
    (PowerMonitorBot.handle rt wf_setup wf (PowerMonitorBot.Register cid) self fs).1
    (PowerMonitorBot.handle rt wf_setup wf (PowerMonitorBot.Register cid) self fs).2
  = PowerMonitorBot.handle rt wf_setup wf (PowerMonitorBot.Register cid) self fs
  ∧ PowerMonitorBot.handle rt wf_setup' wf' (PowerMonitorBot.Unregister cid)
      (PowerMonitorBot.handle rt wf_setup wf (PowerMonitorBot.Unregister cid) self fs).1
      (PowerMonitorBot.handle rt wf_setup wf (PowerMonitorBot.Unregister cid) self fs).2
    = PowerMonitorBot.handle rt wf_setup wf (PowerMonitorBot.Unregister cid) self fs.
Proof.
  split; cbn [PowerMonitorBot.handle].
  - destruct (eq_str (mode self) "admin" && negb (bool_decide (cid ∈ admin_ids self)))
      eqn:Hgate.
    { cbn [fst snd]. by rewrite Hgate. }
    destruct (bool_decide (cid ∈ registered_ids self)) eqn:Hreg; cbn [negb fst snd].
    + by rewrite Hgate, Hreg.
    + cbn [mode admin_ids registered_ids set_registered_ids]. rewrite Hgate.
      rewrite bool_decide_eq_true_2 by set_solver. done.
  - destruct (bool_decide (cid ∈ registered_ids self)) eqn:Hreg; cbn [fst snd].
    + cbn [registered_ids set_registered_ids].
      rewrite bool_decide_eq_false_2 by set_solver. done.
    + by rewrite Hreg.
Qed.

(** X15. Unregistering undoes a registration: after a registration that
    took place and the unregistration of the same chat, the subscribers are
    those from before; and an unregistration removes that chat only. *)
Theorem unregister_undoes_register (rt : pyrt)
    (wf_setup wf wf_setup' wf' : write_fault) (cid : Z) (self : bot) (fs : filesystem) :
  PowerMonitorBot.mutates (PowerMonitorBot.Register cid) self = true →
  registered_ids
    (PowerMonitorBot.handle rt wf_setup' wf' (PowerMonitorBot.Unregister cid)
       (PowerMonitorBot.handle rt wf_setup wf (PowerMonitorBot.Register cid) self fs).1
       (PowerMonitorBot.handle rt wf_setup wf (PowerMonitorBot.Register cid) self fs).2).1
  = registered_ids self
  ∧ ∀ other, other ≠ cid →
      (other ∈ registered_ids
                 (PowerMonitorBot.handle rt wf_setup wf (PowerMonitorBot.Unregister cid)
                    self fs).1
       ↔ other ∈ registered_ids self).
Proof.
  cbn [PowerMonitorBot.mutates PowerMonitorBot.handle].
  intros [Hgate Hnew]%andb_true_iff. apply negb_true_iff in Hgate.
  rewrite Hgate, Hnew. cbn [fst snd registered_ids set_registered_ids].
  apply negb_true_iff, bool_decide_eq_false in Hnew. split.
  - rewrite bool_decide_eq_true_2 by set_solver.
    cbn [fst registered_ids set_registered_ids]. set_solver.
  - intros other Hother.
    destruct (bool_decide (cid ∈ registered_ids self)) eqn:Hreg;
      cbn [fst registered_ids set_registered_ids]; set_solver.
Qed.

Lemma unregister_undoes_register_witness :
  PowerMonitorBot.mutates (PowerMonitorBot.Register 7) scenario_bot = true
  ∧ registered_ids
      (PowerMonitorBot.handle numeral_rt NoFault NoFault (PowerMonitorBot.Unregister 7)
         after_registration.1 after_registration.2).1
    = registered_ids scenario_bot.
Proof.
  split; [reflexivity|].
  apply (unregister_undoes_register numeral_rt NoFault NoFault NoFault NoFault 7
           scenario_bot ∅).
  reflexivity.
Defined.

(** X16. In the two modes the setup installs, a registration takes place
    exactly when [_is_allowed] admits the chat and the chat is not
    registered yet.  For any other value of the mode the two differ: the
    registration is open to every chat, while [_is_allowed] admits the
    admins only. *)
Theorem register_gate_and_is_allowed (self : bot) (cid : Z) :
  (mode self = JStr "admin" ∨ mode self = JStr "multi" →
   PowerMonitorBot.mutates (PowerMonitorBot.Register cid) self
   = PowerMonitorBot._is_allowed self cid
     && negb (bool_decide (cid ∈ registered_ids self)))
  ∧ (eq_str (mode self) "admin" = false → eq_str (mode self) "multi" = false →
     PowerMonitorBot.mutates (PowerMonitorBot.Register cid) self
     = negb (bool_decide (cid ∈ registered_ids self))
     ∧ PowerMonitorBot._is_allowed self cid = bool_decide (cid ∈ admin_ids self)).
Proof.
  unfold PowerMonitorBot.mutates, PowerMonitorBot._is_allowed. split.
  - intros [-> | ->]; cbn; [|done]. by rewrite negb_involutive.
  - by intros -> ->.
Qed.

(** X17. In multi-user mode a chat that registers is among the recipients
    of the next notification, and a chat that unregisters is not. *)
Theorem registration_decides_delivery (rt : pyrt) (api : telebot_api)
    (wf_setup wf : write_fault) (cid : Z) (text : string) (self : bot) (fs : filesystem) :
  eq_str (mode self) "multi" = true →
  (cid, text) ∈ sends (trace (PowerMonitorBot._notify_all api
       (PowerMonitorBot.handle rt wf_setup wf (PowerMonitorBot.Register cid) self fs).1
       text))
  ∧ (cid, text) ∉ sends (trace (PowerMonitorBot._notify_all api
       (PowerMonitorBot.handle rt wf_setup wf (PowerMonitorBot.Unregister cid) self fs).1
       text)).
Proof.
  intros Hmulti.
  assert (eq_str (mode self) "admin" = false) as Hadmin.
  { destruct (mode self) as [| | | |s| |]; try done. cbn in *.
    apply String.eqb_eq in Hmulti as ->. done. }
  split.
  - destruct (notify_all_trace api
        (PowerMonitorBot.handle rt wf_setup wf (PowerMonitorBot.Register cid) self fs).1
        text) as (_ & -> & _).
    apply list_elem_of_fmap. exists cid. split; [done|]. apply elem_of_elements.
    cbn [PowerMonitorBot.handle]. rewrite Hadmin. cbn [andb].
    destruct (bool_decide (cid ∈ registered_ids self)) eqn:Hreg; cbn [negb fst];
      unfold recipients; cbn [mode registered_ids set_registered_ids]; rewrite Hmulti.
    + by apply bool_decide_eq_true in Hreg.
    + set_solver.
  - destruct (notify_all_trace api
        (PowerMonitorBot.handle rt wf_setup wf (PowerMonitorBot.Unregister cid) self fs).1
        text) as (_ & -> & _).
    intros (c & [= <-] & Hc)%list_elem_of_fmap. apply elem_of_elements in Hc.
    revert Hc. cbn [PowerMonitorBot.handle].
    destruct (bool_decide (cid ∈ registered_ids self)) eqn:Hreg; cbn [fst];
      unfold recipients; cbn [mode registered_ids set_registered_ids]; rewrite Hmulti.
    + set_solver.
    + by apply bool_decide_eq_false in Hreg.
Qed.

Lemma registration_decides_delivery_witness :
  eq_str (mode scenario_bot) "multi" = true
  ∧ (7, "hello") ∈ sends (trace (PowerMonitorBot._notify_all scenario_api
       (PowerMonitorBot.handle numeral_rt NoFault NoFault (PowerMonitorBot.Register 7)
          scenario_bot ∅).1 "hello"))
  ∧ (7, "hello") ∉ sends (trace (PowerMonitorBot._notify_all scenario_api
       (PowerMonitorBot.handle numeral_rt NoFault NoFault (PowerMonitorBot.Unregister 7)
          scenario_bot ∅).1 "hello")).
Proof.
  split; [reflexivity|].
  apply (registration_decides_delivery numeral_rt scenario_api NoFault NoFault 7 "hello"
           scenario_bot ∅).
  reflexivity.
Defined.

(** X18. Outside multi-user mode the recipients of a notification are the
    admins: registering or unregistering does not change who is notified. *)
Theorem registration_is_ignored_outside_multi_mode (rt : pyrt)
    (wf_setup wf : write_fault) (cid : Z) (self : bot) (fs : filesystem) :
  eq_str (mode self) "multi" = false →
  recipients self = admin_ids self
  ∧ recipients
      (PowerMonitorBot.handle rt wf_setup wf (PowerMonitorBot.Register cid) self fs).1
    = admin_ids self
  ∧ recipients
      (PowerMonitorBot.handle rt wf_setup wf (PowerMonitorBot.Unregister cid) self fs).1
    = admin_ids self.
Proof.
  intros Hmode. cbn [PowerMonitorBot.handle]. unfold recipients.
  destruct (eq_str (mode self) "admin" && negb (bool_decide (cid ∈ admin_ids self))),
           (bool_decide (cid ∈ registered_ids self));
    cbn [negb fst mode admin_ids set_registered_ids]; by rewrite Hmode.
Qed.

Lemma registration_is_ignored_outside_multi_mode_witness :
  eq_str (mode admin_bot) "multi" = false
  ∧ recipients admin_bot = admin_ids admin_bot
  ∧ recipients
      (PowerMonitorBot.handle numeral_rt NoFault NoFault (PowerMonitorBot.Register 42)
         admin_bot ∅).1
    = admin_ids admin_bot
  ∧ recipients
      (PowerMonitorBot.handle numeral_rt NoFault NoFault (PowerMonitorBot.Unregister 42)
         admin_bot ∅).1
    = admin_ids admin_bot.
Proof.
  split; [reflexivity|].
  apply (registration_is_ignored_outside_multi_mode numeral_rt NoFault NoFault 42
           admin_bot ∅).
  reflexivity.
Defined.

(** The bot a reconfiguration requested by an admin leaves. *)
Lemma reconfigure_result (rt : pyrt) (wf_setup wf : write_fault) (cid : Z)
    (answers : setup_answers) (self : bot) (fs : filesystem) :
  cid ∈ admin_ids self →
  (PowerMonitorBot.handle rt wf_setup wf (PowerMonitorBot.Reconfigure cid answers)
     self fs).1
  = {| platform := platform self;
       poll_interval := answered_poll_interval answers;
       token := JStr (ans_token answers);
       registered_ids := registered_ids self;
       admin_ids := answered_admins answers;
       mode := JStr (answered_mode answers);
       prev_plugged := prev_plugged self |}.
Proof.
  intros Hadmin. cbn [PowerMonitorBot.handle].
  rewrite bool_decide_eq_true_2 by done. cbn [negb].
  unfold PowerMonitorBot._reconfigure_console, interactive_setup.
  destruct (safe_write_json wf_setup DATA_FILE _ fs) as [ok fs1].
  unfold answered_poll_interval, answered_admins, answered_mode, default_state, get_default.
  destruct answers as [tok [ids|] [v|]];
    cbn [ans_token ans_admin_ids ans_poll_interval];
    try destruct (0 <? v)%Z;
    repeat (rewrite lookup_insert_eq || rewrite lookup_insert_ne by done);
    cbn [py_iter py_int PowerMonitorBot.int_set];
    rewrite ?int_set_ints; reflexivity.
Qed.

(** X19. A reconfiguration requested by an admin installs the answers of
    the setup (token, mode, admins, a positive polling interval) and keeps
    the subscribers, the platform and the tracked plugged value. *)
Theorem reconfigure_installs_answers (rt : pyrt) (wf_setup wf : write_fault) (cid : Z)
    (answers : setup_answers) (self : bot) (fs : filesystem) :
  cid ∈ admin_ids self →
  registered_ids (PowerMonitorBot.handle rt wf_setup wf
                    (PowerMonitorBot.Reconfigure cid answers) self fs).1
  = registered_ids self
  ∧ prev_plugged (PowerMonitorBot.handle rt wf_setup wf
                    (PowerMonitorBot.Reconfigure cid answers) self fs).1
    = prev_plugged self
  ∧ platform (PowerMonitorBot.handle rt wf_setup wf
                (PowerMonitorBot.Reconfigure cid answers) self fs).1
    = platform self
  ∧ token (PowerMonitorBot.handle rt wf_setup wf
             (PowerMonitorBot.Reconfigure cid answers) self fs).1
    = JStr (ans_token answers)
  ∧ mode (PowerMonitorBot.handle rt wf_setup wf
            (PowerMonitorBot.Reconfigure cid answers) self fs).1
    = JStr (answered_mode answers)
  ∧ admin_ids (PowerMonitorBot.handle rt wf_setup wf
                 (PowerMonitorBot.Reconfigure cid answers) self fs).1
    = answered_admins answers
  ∧ 0 < poll_interval (PowerMonitorBot.handle rt wf_setup wf
                         (PowerMonitorBot.Reconfigure cid answers) self fs).1.
Proof.
  intros Hadmin. rewrite reconfigure_result by done.
  cbn [registered_ids prev_plugged platform token mode admin_ids poll_interval].
  repeat (split; [reflexivity|]).
  unfold answered_poll_interval, DEFAULT_POLL_INTERVAL.
  destruct (ans_poll_interval answers) as [v|]; [|lia].
  destruct (Z.ltb_spec 0 v); lia.
Qed.

Lemma reconfigure_installs_answers_witness :
  42 ∈ admin_ids admin_bot
  ∧ registered_ids (PowerMonitorBot.handle numeral_rt NoFault NoFault
                      (PowerMonitorBot.Reconfigure 42 no_answers) admin_bot ∅).1
    = registered_ids admin_bot.
Proof.
  assert (42 ∈ admin_ids admin_bot) as Hadmin by (cbn; set_solver).
  split; [exact Hadmin|].
  exact (proj1 (reconfigure_installs_answers numeral_rt NoFault NoFault 42 no_answers
                  admin_bot ∅ Hadmin)).
Defined.

(** X20. A reconfiguration to multi-user mode empties the admin set:
    afterwards no chat passes the gate of the reconfiguration, so the bot
    cannot be reconfigured through a chat again. *)
Theorem reconfigure_to_multi_locks_reconfiguration (rt : pyrt)
    (wf_setup wf : write_fault) (cid : Z) (answers : setup_answers)
    (self : bot) (fs : filesystem) :
  cid ∈ admin_ids self →
  ans_admin_ids answers = None →
  admin_ids (PowerMonitorBot.handle rt wf_setup wf
               (PowerMonitorBot.Reconfigure cid answers) self fs).1 = ∅
  ∧ ∀ cid' answers',
      PowerMonitorBot.mutates (PowerMonitorBot.Reconfigure cid' answers')
        (PowerMonitorBot.handle rt wf_setup wf
           (PowerMonitorBot.Reconfigure cid answers) self fs).1
      = false.
Proof.
  intros Hadmin Hmulti. rewrite reconfigure_result by done.
  cbn [admin_ids PowerMonitorBot.mutates]. unfold answered_admins. rewrite Hmulti.
  split; [done|]. intros cid' _. by apply bool_decide_eq_false_2.
Qed.

Lemma reconfigure_to_multi_locks_reconfiguration_witness :
  42 ∈ admin_ids admin_bot
  ∧ ans_admin_ids no_answers = None
  ∧ admin_ids (PowerMonitorBot.handle numeral_rt NoFault NoFault
                 (PowerMonitorBot.Reconfigure 42 no_answers) admin_bot ∅).1 = ∅.
Proof.
  assert (42 ∈ admin_ids admin_bot) as Hadmin by (cbn; set_solver).
  split; [exact Hadmin|]. split; [reflexivity|].
  exact (proj1 (reconfigure_to_multi_locks_reconfiguration numeral_rt NoFault NoFault 42
                  no_answers admin_bot ∅ Hadmin eq_refl)).
Defined.

(** X21. A command that is refused (a registration in admin-only mode by a
    chat that is no admin, a reconfiguration by a chat that is no admin) or
    that has nothing to do (a registration of a subscriber, an
    unregistration of a chat that is none) changes neither the bot nor any
    file. *)
Theorem refused_command_changes_nothing (rt : pyrt) (wf_setup wf : write_fault)
    (c : PowerMonitorBot.command) (self : bot) (fs : filesystem) :
  PowerMonitorBot.mutates c self = false →
  PowerMonitorBot.handle rt wf_setup wf c self fs = (self, fs).
Proof.
  destruct c as [cid|cid|cid answers];
    cbn [PowerMonitorBot.mutates PowerMonitorBot.handle]; intros Hno.
  - destruct (eq_str (mode self) "admin" && negb (bool_decide (cid ∈ admin_ids self)));
      [done|]. cbn [negb andb] in Hno. by rewrite Hno.
  - by rewrite Hno.
  - by rewrite Hno.
Qed.

Lemma refused_command_changes_nothing_witness :
  PowerMonitorBot.mutates (PowerMonitorBot.Register 7) admin_bot = false
  ∧ PowerMonitorBot.handle numeral_rt NoFault NoFault (PowerMonitorBot.Register 7)
      admin_bot ∅
    = (admin_bot, ∅).
Proof.
  split; [reflexivity|].
  apply (refused_command_changes_nothing numeral_rt NoFault NoFault
           (PowerMonitorBot.Register 7) admin_bot ∅).
  reflexivity.
Defined.

(** ** Start-up *)

Lemma eq_str_true (v : json) (s : string) : eq_str v s = true → v = JStr s.
Proof. destruct v; try done. cbn. by intros ->%String.eqb_eq. Qed.

Lemma interactive_setup_platform (platform_name : json) (answers : setup_answers)
    (wf : write_fault) (fs : filesystem) :
  (interactive_setup platform_name answers wf fs).1 !! "platform" = Some platform_name.
Proof.
  unfold interactive_setup.
  destruct (safe_write_json wf DATA_FILE _ fs) as [ok fs']. cbn [fst].
  destruct answers as [tok [ids|] [v|]]; cbn [ans_token ans_admin_ids ans_poll_interval];
    try destruct (0 <? v)%Z; unfold default_state;
    repeat (rewrite lookup_insert_ne by done); by rewrite lookup_insert_eq.
Qed.

(** What the constructor puts in the fields of a bot. *)
Lemma init_fields (api : telebot_api) (rt : pyrt) (detected : string)
    (config : gmap string json) (self : bot) :
  PowerMonitorBot.__init__ api rt detected config = Ok self →
  platform self = get_default config "platform" (JStr detected)
  ∧ token self = get_default config "bot_token" JNull
  ∧ truthy (token self) = true
  ∧ TeleBot api (token self) = Ok tt
  ∧ mode self = get_default config "mode" (JStr "multi")
  ∧ prev_plugged self = None.
Proof.
  unfold PowerMonitorBot.__init__. intros H.
  destruct (py_int rt _) as [poll|]; [|done].
  destruct (truthy (get_default config "bot_token" JNull)) eqn:Htruthy; [|done].
  cbn [negb] in H.
  destruct (TeleBot api _) as [[]|] eqn:Hbot; [|done].
  destruct (py_iter _) as [regs|]; [|done].
  destruct (ints_if_truthy rt regs) as [regs'|]; [|done].
  destruct (py_iter _) as [adms|]; [|done].
  destruct (ints_if_truthy rt adms) as [adms'|]; [|done].
  by injection H as <-.
Qed.

(** X22. [main] ends with exit status 1, without building a bot, when the
    document of the data file has no token (no key, null, or an empty
    text), whatever else it holds. *)
Theorem main_exits_without_token (api : telebot_api) (rt : pyrt) (platform_name : string)
    (answers : setup_answers) (wf : write_fault) (fs : filesystem)
    (d : gmap string json) :
  safe_read_json DATA_FILE fs = Some (JObj d) →
  d ≠ ∅ →
  truthy (get_default d "bot_token" JNull) = false →
  main api rt platform_name answers wf fs = Exits 1.
Proof.
  intros Hread Hne Htoken. unfold main. rewrite Hread. cbn [truthy].
  rewrite bool_decide_eq_false_2 by done. cbn [negb].
  destruct (negb _).
  - unfold get_default in *. rewrite lookup_insert_ne by done. by rewrite Htoken.
  - by rewrite Htoken.
Qed.

Lemma main_exits_without_token_witness :
  ∃ d, safe_read_json DATA_FILE fs_without_token = Some (JObj d)
       ∧ d ≠ ∅
       ∧ truthy (get_default d "bot_token" JNull) = false
       ∧ main scenario_api numeral_rt "linux" no_answers NoFault fs_without_token
         = Exits 1.
Proof.
  eexists. split; [reflexivity|].
  assert (<["mode" := JStr "multi"]> ∅ ≠ (∅ : gmap string json)) as Hne
    by apply insert_non_empty.
  split; [exact Hne|]. split; [reflexivity|].
  exact (main_exits_without_token scenario_api numeral_rt "linux" no_answers NoFault
           fs_without_token _ eq_refl Hne eq_refl).
Defined.

(** X23. Whenever [main] starts a bot, the bot runs on the platform just
    detected, whatever platform the data file recorded; it has a token
    that is true and that [TeleBot] accepted, and no tracked plugged
    value. *)
Theorem main_starts_on_detected_platform (api : telebot_api) (rt : pyrt)
    (platform_name : string) (answers : setup_answers) (wf : write_fault)
    (fs fs' : filesystem) (pm : bot) :
  main api rt platform_name answers wf fs = Started pm fs' →
  platform pm = JStr platform_name
  ∧ truthy (token pm) = true
  ∧ TeleBot api (token pm) = Ok tt
  ∧ prev_plugged pm = None.
Proof.
  unfold main. set (r := if negb _ then _ else _).
  assert (∀ cfg fs1, r = Ok (cfg, fs1) → cfg !! "platform" = Some (JStr platform_name))
    as Hplatform.
  { subst r. intros cfg fs1.
    destruct (safe_read_json DATA_FILE fs) as [v|]; cbn [negb].
    - destruct (truthy v); cbn [negb].
      + destruct v; try done.
        destruct (d !! "platform") as [p|] eqn:Hp.
        * destruct (eq_str p platform_name) eqn:Heq; cbn [negb]; intros H; simplify_eq.
          -- by apply eq_str_true in Heq as ->.
          -- apply lookup_insert_eq.
        * cbn [negb]. intros H; simplify_eq. apply lookup_insert_eq.
      + intros H.
        pose proof (interactive_setup_platform (JStr platform_name) answers wf fs) as Hp.
        destruct (interactive_setup (JStr platform_name) answers wf fs). by simplify_eq.
    - intros H.
      pose proof (interactive_setup_platform (JStr platform_name) answers wf fs) as Hp.
      destruct (interactive_setup (JStr platform_name) answers wf fs). by simplify_eq. }
  destruct r as [[cfg fs1]|e]; [|done].
  specialize (Hplatform cfg fs1 eq_refl).
  destruct (negb (truthy (get_default cfg "bot_token" JNull))); [done|].
  destruct (PowerMonitorBot.__init__ api rt platform_name cfg) as [pm0|e] eqn:Hinit;
    [|done].
  destruct (py_iter _) as [reg|]; [|done].
  destruct (py_iter _) as [adm|]; [|done].
  intros H; simplify_eq.
  destruct (init_fields _ _ _ _ _ Hinit) as (Hp & Ht & Htruthy & Hbot & _ & Hprev).
  cbn [platform token prev_plugged set_admin_ids set_registered_ids].
  unfold get_default in Hp. rewrite Hplatform in Hp. done.
Qed.

Lemma main_starts_on_detected_platform_witness :
  ∃ pm fs',
    main scenario_api numeral_rt "linux" no_answers NoFault after_registration.2
    = Started pm fs'
    ∧ platform pm = JStr "linux"
    ∧ truthy (token pm) = true
    ∧ TeleBot scenario_api (token pm) = Ok tt
    ∧ prev_plugged pm = None.
Proof.
  destruct (main scenario_api numeral_rt "linux" no_answers NoFault after_registration.2)
    as [pm fs'| |] eqn:Hmain; [|by vm_compute in Hmain..].
  exists pm, fs'. split; [reflexivity|].
  exact (main_starts_on_detected_platform scenario_api numeral_rt "linux" no_answers
           NoFault after_registration.2 fs' pm Hmain).
Defined.

(** ** Setup from the environment *)

Example setup_from_env_admin :
  setup_from_env numeral_rt environ_admin (JStr "linux") = Ok (Some config_admin).
Proof. by vm_compute. Qed.

(** X24. A configuration built from the environment has the token of
    [BOT_TOKEN], which is not empty, a polling interval that is a positive
    integer whatever [POLL_INTERVAL] holds, the mode "admin" or else the
    mode "multi" with no admin, no subscriber, and the platform given.
    There is no configuration exactly when [BOT_TOKEN] is unset or empty. *)
Theorem setup_from_env_is_well_formed (rt : pyrt) (environ : gmap string string)
    (platform_name : json) :
  (∀ cfg, setup_from_env rt environ platform_name = Ok (Some cfg) →
     ∃ token v,
       environ !! "BOT_TOKEN" = Some token ∧ token ≠ EmptyString
       ∧ cfg !! "bot_token" = Some (JStr token)
       ∧ cfg !! "poll_interval" = Some (JInt v) ∧ 0 < v
       ∧ (cfg !! "mode" = Some (JStr "admin")
          ∨ cfg !! "mode" = Some (JStr "multi") ∧ cfg !! "admin_ids" = Some (JArr []))
       ∧ cfg !! "registered_ids" = Some (JArr [])
       ∧ cfg !! "platform" = Some platform_name)
  ∧ (setup_from_env rt environ platform_name = Ok None
     ↔ environ !! "BOT_TOKEN" = None ∨ environ !! "BOT_TOKEN" = Some EmptyString).
Proof.
  unfold setup_from_env.
  destruct (environ !! "BOT_TOKEN") as [token|]; [|split; [done|by split; [left|]]].
  destruct token as [|c token]; cbn [str_truthy negb];
    [split; [done|by split; [right|]]|].
  set (tok := String c token).
  assert (∀ cfg : gmap string json,
    cfg !! "poll_interval" = Some (JInt DEFAULT_POLL_INTERVAL) →
    match
      match int_of_str rt (default (pretty DEFAULT_POLL_INTERVAL)
                             (environ !! "POLL_INTERVAL")) with
      | Ok poll_interval =>
          if (0 <? poll_interval)%Z
          then Ok (Some (<["poll_interval" := JInt poll_interval]> cfg))
          else Ok (Some cfg)
      | Raise e =>
          if is_value_error e
          then Ok (Some (<["poll_interval" := JInt DEFAULT_POLL_INTERVAL]> cfg))
          else Raise e
      end
    with
    | Ok (Some cfg') =>
        (∃ v, cfg' !! "poll_interval" = Some (JInt v) ∧ 0 < v)
        ∧ ∀ k, k ≠ "poll_interval" → cfg' !! k = cfg !! k
    | Ok None => False
    | Raise _ => True
    end) as Hpoll.
  { intros cfg Hdefault.
    destruct (int_of_str rt _) as [v|e].
    - destruct (Z.ltb_spec 0 v).
      + split; [exists v; by rewrite lookup_insert_eq|].
        intros k Hk. by rewrite lookup_insert_ne.
      + split; [by exists DEFAULT_POLL_INTERVAL|done].
    - destruct (is_value_error e); [|done].
      split; [exists DEFAULT_POLL_INTERVAL; by rewrite lookup_insert_eq|].
      intros k Hk. by rewrite lookup_insert_ne. }
  split; [|split; [|by intros [|[=]]]].
  - intros cfg.
    destruct (str_in _ _).
    + destruct (env_admin_ids rt _) as [ids|e]; [|done].
      match goal with
      | |- context [<["poll_interval" := JInt DEFAULT_POLL_INTERVAL]> ?c] =>
          specialize (Hpoll c eq_refl)
      end.
      destruct (match int_of_str rt _ with Ok _ => _ | Raise _ => _ end)
        as [[cfg'|]|e]; [|done..].
      intros [= ->]. destruct Hpoll as [(v & Hv & Hpos) Hkeep].
      exists tok, v.
      rewrite (Hkeep "bot_token"), (Hkeep "mode"), (Hkeep "admin_ids"),
        (Hkeep "registered_ids"), (Hkeep "platform") by done.
      unfold default_state.
      repeat (rewrite lookup_insert_eq || rewrite lookup_insert_ne by done).
      repeat split; try done. by left.
    + match goal with
      | |- context [<["poll_interval" := JInt DEFAULT_POLL_INTERVAL]> ?c] =>
          specialize (Hpoll c eq_refl)
      end.
      destruct (match int_of_str rt _ with Ok _ => _ | Raise _ => _ end)
        as [[cfg'|]|e]; [|done..].
      intros [= ->]. destruct Hpoll as [(v & Hv & Hpos) Hkeep].
      exists tok, v.
      rewrite (Hkeep "bot_token"), (Hkeep "mode"), (Hkeep "admin_ids"),
        (Hkeep "registered_ids"), (Hkeep "platform") by done.
      unfold default_state.
      repeat (rewrite lookup_insert_eq || rewrite lookup_insert_ne by done).
      repeat split; try done. by right.
  - destruct (str_in _ _).
    + destruct (env_admin_ids rt _) as [ids|e]; [|done].
      match goal with
      | |- context [<["poll_interval" := JInt DEFAULT_POLL_INTERVAL]> ?c] =>
          specialize (Hpoll c eq_refl)
      end.
      by destruct (match int_of_str rt _ with Ok _ => _ | Raise _ => _ end)
        as [[cfg'|]|e].
    + match goal with
      | |- context [<["poll_interval" := JInt DEFAULT_POLL_INTERVAL]> ?c] =>
          specialize (Hpoll c eq_refl)
      end.
      by destruct (match int_of_str rt _ with Ok _ => _ | Raise _ => _ end)
        as [[cfg'|]|e].
Qed.

(** X25. The configuration [setup_from_env] builds is the one
    [interactive_setup] returns for the answers the environment gives: the
    token, the admin ids that are numbers when the mode is "admin" or "1"
    (in any case), and the polling interval when it is a number. *)
Theorem setup_from_env_is_a_setup (rt : pyrt) (environ : gmap string string)
    (platform_name : json) (cfg : gmap string json) :
  setup_from_env rt environ platform_name = Ok (Some cfg) →
  ∃ answers,
    environ !! "BOT_TOKEN" = Some (ans_token answers)
    ∧ ∀ wf fs, (interactive_setup platform_name answers wf fs).1 = cfg.
Proof.
  unfold setup_from_env.
  destruct (environ !! "BOT_TOKEN") as [token|]; [|done].
  destruct (negb (str_truthy token)); [done|].
  set (admins := if str_in _ _ then _ else _).
  assert (∃ ids, admins
                 = Ok (match ids with
                       | Some ids =>
                           <["admin_ids" := JArr (JInt <$> ids)]>
                             (<["mode" := JStr "admin"]>
                                (<["bot_token" := JStr token]>
                                   (default_state platform_name)))
                       | None =>
                           <["mode" := JStr "multi"]>
                             (<["bot_token" := JStr token]>
                                (default_state platform_name))
                       end)
                ∨ ∃ e, admins = Raise e) as [ids Hadmins].
  { subst admins. destruct (str_in _ _).
    - destruct (env_admin_ids rt _) as [ids|e].
      + exists (Some ids). by left.
      + exists None. right. by exists e.
    - exists None. by left. }
  destruct Hadmins as [Hadmins | [e Hadmins]]; rewrite Hadmins; [|done].
  clear Hadmins admins.
  set (base := match ids with Some _ => _ | None => _ end).
  assert (base !! "poll_interval" = Some (JInt DEFAULT_POLL_INTERVAL)) as Hdefault.
  { subst base. destruct ids; unfold default_state;
      repeat (rewrite lookup_insert_ne by done); by rewrite lookup_insert_eq. }
  assert (∀ poll wf fs,
            (interactive_setup platform_name (SetupAnswers token ids poll) wf fs).1
            = match poll with
              | Some v => if (0 <? v)%Z then <["poll_interval" := JInt v]> base
                          else <["poll_interval" := JInt DEFAULT_POLL_INTERVAL]> base
              | None => <["poll_interval" := JInt DEFAULT_POLL_INTERVAL]> base
              end) as Hsetup.
  { intros poll wf fs. unfold interactive_setup.
    destruct (safe_write_json wf DATA_FILE _ fs) as [ok fs1]. cbn [fst].
    subst base. by destruct ids, poll. }
  destruct (int_of_str rt _) as [v|e].
  - destruct (0 <? v)%Z eqn:Hpos; intros [= <-];
      exists (SetupAnswers token ids (Some v)); (split; [done|]);
      intros wf fs; rewrite Hsetup, Hpos; [done|by apply insert_id].
  - destruct (is_value_error e); [|done]. intros [= <-].
    exists (SetupAnswers token ids None). split; [done|].
    intros wf fs. by rewrite Hsetup.
Qed.

Lemma setup_from_env_is_a_setup_witness :
  setup_from_env numeral_rt environ_admin (JStr "linux") = Ok (Some config_admin)
  ∧ ∃ answers,
      environ_admin !! "BOT_TOKEN" = Some (ans_token answers)
      ∧ ∀ wf fs, (interactive_setup (JStr "linux") answers wf fs).1 = config_admin.
Proof.
  split; [by vm_compute|].
  apply (setup_from_env_is_a_setup numeral_rt environ_admin (JStr "linux") config_admin).
  by vm_compute.
Defined.

(** ** Platform detection *)

(** X26. The platform detected decides the adapters of the probe: on a
    system whose name contains "linux" (in any case) the probe has the
    sysfs adapter, and the termux adapter exactly when one of the three
    Android hints holds; on a system that is not linux and whose name
    contains "windows" or "darwin" the probe has psutil only; any other
    name is returned in lower case as it is. *)
Theorem detect_platform_decides_chain (h : host) :
  (contains "linux" (lower (system h)) = true →
   Sysfs ∈ chain (JStr (detect_platform h))
   ∧ (Termux ∈ chain (JStr (detect_platform h))
      ↔ contains "android" (lower (release h)) || exists_termux_am h
        || exists_com_termux h = true))
  ∧ (contains "linux" (lower (system h)) = false →
     contains "windows" (lower (system h)) || contains "darwin" (lower (system h)) = true →
     chain (JStr (detect_platform h)) = [Psutil])
  ∧ (contains "linux" (lower (system h)) = false →
     contains "windows" (lower (system h)) = false →
     contains "darwin" (lower (system h)) = false →
     detect_platform h = lower (system h)).
Proof.
  unfold detect_platform. split; [|split].
  - intros ->.
    destruct (contains "android" (lower (release h)) || exists_termux_am h);
      [|destruct (exists_com_termux h)]; cbn.
    + split; [set_solver|]. split; [done|set_solver].
    + split; [set_solver|]. split; [done|set_solver].
    + split; [set_solver|]. split; [|done].
      intros H. repeat (apply elem_of_cons in H as [H|H]; [done|]).
      by apply elem_of_nil in H.
  - intros -> H. by destruct (contains "windows" (lower (system h))); [|cbn in H; rewrite H].
  - by intros -> -> ->.
Qed.

Example detect_platform_termux :
  detect_platform {| system := "Linux"; release := "4.14.186-android";
                     exists_termux_am := false; exists_com_termux := true |}
  = "android".
Proof. reflexivity. Qed.

(** ** The menu *)

(** X27. The menu has rows of at most two buttons; every button carries
    data the callback handler has a branch for; the reconfiguration button
    is there exactly for the admins, that is exactly when the
    reconfiguration it asks for is carried out; and data without a branch,
    like the data of the status and help buttons, changes neither the bot
    nor the files. *)
Theorem menu_matches_callback_handler (self : bot) (chat_id : Z) :
  Forall (fun row : list button => length row ≤ 2)%nat (Menu._create_main_menu self chat_id)
  ∧ (∀ b, b ∈ concat (Menu._create_main_menu self chat_id) →
          callback_data b ∈ Menu.handled_data)
  ∧ ((∃ b, b ∈ concat (Menu._create_main_menu self chat_id)
           ∧ callback_data b = "reconfigure")
     ↔ chat_id ∈ admin_ids self)
  ∧ (∀ answers,
       chat_id ∈ admin_ids self
       ↔ PowerMonitorBot.mutates (PowerMonitorBot.Reconfigure chat_id answers) self = true)
  ∧ (∀ rt wf_setup wf answers data fs,
       data ∉ ["register"; "unregister"; "reconfigure"] →
       Menu.handle_callback_query rt wf_setup wf answers data chat_id self fs = (self, fs)).
Proof.
  unfold Menu._create_main_menu, keyboard_add, Menu.handled_data.
  split; [|split; [|split; [|split]]].
  - destruct (bool_decide _); cbn; repeat constructor.
  - intros b. destruct (bool_decide _); cbn; intros Hb;
      repeat (apply elem_of_cons in Hb as [->|Hb]; [cbn; set_solver|]);
      by apply elem_of_nil in Hb.
  - destruct (bool_decide (chat_id ∈ admin_ids self)) eqn:Hadmin; cbn.
    + apply bool_decide_eq_true in Hadmin. split; [done|]. intros _.
      exists (Button "⚙️ Reconfigure (Admin)" "reconfigure"). split; [set_solver|done].
    + apply bool_decide_eq_false in Hadmin. split; [|done].
      intros (b & Hb & Hdata).
      repeat (apply elem_of_cons in Hb as [->|Hb]; [done|]).
      by apply elem_of_nil in Hb.
  - intros answers. cbn [PowerMonitorBot.mutates]. symmetry. apply bool_decide_eq_true.
  - intros rt wf_setup wf answers data fs Hdata. unfold Menu.handle_callback_query.
    destruct (String.eqb_spec data "status"); [done|].
    destruct (String.eqb_spec data "register") as [->|_]; [set_solver|].
    destruct (String.eqb_spec data "unregister") as [->|_]; [set_solver|].
    destruct (String.eqb_spec data "help"); [done|].
    destruct (String.eqb_spec data "reconfigure") as [->|_]; [set_solver|done].
Qed.

(** ** The monitor loop *)

Lemma changes_alternate (prev : bool) (values : list bool) :
  adjacent_differ (prev :: changes prev values)
  ∧ (length (changes prev values) ≤ length values)%nat.
Proof.
  revert prev. induction values as [|now values IH]; intros prev; [done|].
  cbn [changes]. destruct (Bool.eqb_spec now prev) as [->|Hne].
  - destruct (IH prev) as [Halt Hlen]. split; [done|]. cbn [length]. lia.
  - destruct (IH now) as [Halt Hlen]. split; [|cbn [length]; lia].
    cbn [adjacent_differ] in *. split; [congruence|done].
Qed.

Lemma transitions_alternate (values : list bool) :
  adjacent_differ (transitions values)
  ∧ (length (transitions values) ≤ pred (length values))%nat.
Proof.
  destruct values as [|first values]; [done|]. cbn [transitions length pred].
  destruct (changes_alternate first values) as [[_ Halt] Hlen]. done.
Qed.

Lemma message_for_alternate (news : list bool) :
  adjacent_differ news → adjacent_differ (message_for <$> news).
Proof.
  induction news as [|a [|b news] IH]; [done..|].
  intros [Hne Hrest]. rewrite !fmap_cons in *. split; [|by apply IH].
  by destruct a, b.
Qed.

Lemma known_length (samples : list (option snapshot)) :
  (length (known samples) ≤ length samples)%nat.
Proof.
  induction samples as [|s samples IH]; [done|].
  rewrite known_cons. destruct (s ≫= power_plugged); cbn [length]; lia.
Qed.

(** X28. The notifications of the monitor loop alternate: no two calls of
    [_notify_all] in a row carry the same text, so "power on" is never
    announced twice without a "power off" between; and there are at most
    as many calls as ticks, the first read never notifying. *)
Theorem monitor_loop_notifications_alternate
    (api : telebot_api) (self : bot) (entered : list adapter)
    (first : option snapshot) (rest : list (list adapter * result (option snapshot))) :
  adjacent_differ
    (notify_calls
       (trace (PowerMonitorBot._monitor_loop api self (probe_of (entered, Ok first))
                 (probe_of <$> rest))))
  ∧ (length
       (notify_calls
          (trace (PowerMonitorBot._monitor_loop api self (probe_of (entered, Ok first))
                    (probe_of <$> rest))))
     ≤ length rest)%nat.
Proof.
  unfold PowerMonitorBot._monitor_loop.
  destruct (monitor_first_read_returned self entered first) as (t0 & -> & Hn0 & _).
  rewrite bind_ok.
  destruct (monitor_ticks_probes api rest (set_prev_plugged self (first ≫= power_plugged)))
    as (t & -> & Hn & _).
  cbn [trace outcome fst snd prev_plugged set_prev_plugged] in *.
  assert (notify_calls (t0 ++ t) = notify_calls t) as ->
    by (unfold notify_calls in *; by rewrite omap_app, Hn0).
  rewrite Hn, <- transitions_known_cons, length_fmap.
  destruct (transitions_alternate (known (first :: samples_of rest))) as [Halt Hlen].
  split; [by apply message_for_alternate|].
  pose proof (known_length (first :: samples_of rest)) as Hk.
  unfold samples_of in *. cbn [length] in Hk. rewrite length_fmap in Hk. lia.
Qed.


(** The run of the witness, computed: the listing failure of the first
    tick is logged and skipped, then the power comes and goes. *)
Example run_monitor_survives_listing_failure :
  notify_calls
    (trace (run_monitor numeral_rt psutil_present scenario_api scenario_bot env_laptop
              [env_unlistable; env_laptop_plugged; env_laptop_plugged; env_laptop]))
  = [PowerMonitorBot.msg_power_on; PowerMonitorBot.msg_power_off].
Proof. by vm_compute. Qed.

